(** * Statistics calculators: a shallow embedding and its properties

    The calculators of the repository (descriptive statistics, normal
    distribution, confidence intervals, hypothesis tests) are Python methods
    over floats and ints.  They are embedded here as functions over the real
    numbers: a Python number is an [R] (an [int] parameter is a [Z], injected
    by [IZR] where Python converts it), and the scalar formulas of the
    calculators are written with the operations of [R].  Where a result
    depends on how a chain of operations rounds, the rounding is embedded:
    numpy's reductions ([np.sum], [np.mean], [np.var], [np.std]) compute in
    binary64, and the distribution functions of scipy are parameters, which
    are given the values scipy computes where a statement depends on them.
    What Python raises is kept: a method returns in the error monad [Exc],
    and true division, [math.sqrt], [math.ceil], list indexing and name
    lookup fail where Python makes them fail; numpy's division does not
    raise.  A division by a non-zero literal ([alpha / 2]) cannot raise and
    is written with [R]'s division.

    The text fields of a result ([formula], [steps], [conclusion],
    [interpretation], [description], the hypotheses [h0]/[h1]) format floats
    and are not part of the records below.  Reading a name that has no value
    is an error in Python: the names a [return] literal reads are looked up in
    the two methods where some name is not bound on every path
    ([one_sample_mean_test], [two_sample_mean_test]); in every other method
    each name read is bound on every path that reaches the read. *)

From Stdlib Require Import Reals Lra Lia ZArith String List Bool.
From Stdlib Require Import Sorting.Sorted Sorting.Permutation.
From ExtLib Require Import Structures.Monad Structures.MonadExc Data.Monads.EitherMonad.
From Equations Require Import Equations.
Import ListNotations MonadNotation.
Local Open Scope monad_scope.
Local Open Scope string_scope.
Local Open Scope R_scope.

(** ** Python: exceptions, arithmetic that can raise, name lookup *)

Module Py.

Inductive PyExc : Type :=
| ValueError (msg : string)
| ZeroDivisionError
| OverflowError (msg : string)
| IndexError
| NameError (name : string)
| UnboundLocalError (name : string).

(** [inl e]: the call raised [e]; [inr v]: it returned [v]. *)
Definition Exc : Type -> Type := sum PyExc.

(** The two exceptions Python raises for a variable that has no value. *)
Definition undefined_variable (e : PyExc) : bool :=
  match e with
  | NameError _ | UnboundLocalError _ => true
  | _ => false
  end.

(** [x / y] on numbers: [ZeroDivisionError] when the divisor is zero. *)
Definition div (x y : R) : Exc R :=
  if Req_dec_T y 0 then raise ZeroDivisionError else ret (x / y).

(** [math.sqrt(x)]: [ValueError] on a negative argument. *)
Definition math_sqrt (x : R) : Exc R :=
  if Rlt_dec x 0 then raise (ValueError "math domain error") else ret (sqrt x).

(** [math.ceil(x)], an [int]. *)
Definition math_ceil (x : R) : Z := Zceil x.

(** *** numpy scalars

    [stats.norm.ppf] returns an [np.float64], and arithmetic with one is
    numpy's: a division by zero does not raise, its result is an infinity,
    or nan when the dividend is zero too. *)
Inductive np_float64 : Type :=
| finite (x : R)
| infinity
| nan.

(** [x / y] with an [np.float64] operand. *)
Definition np_true_divide (x y : R) : np_float64 :=
  if Req_dec_T y 0
  then (if Req_dec_T x 0 then nan else infinity)
  else finite (x / y).


(** [math.ceil(x)] on such a scalar: the finite [x] with its ceiling;
    [OverflowError] on an infinity and [ValueError] on nan, which have no
    integer. *)
Definition math_ceil_float64 (x : np_float64) : Exc (R * Z) :=
  match x with
  | finite r => ret (r, math_ceil r)
  | infinity => raise (OverflowError "cannot convert float infinity to integer")
  | nan => raise (ValueError "cannot convert float NaN to integer")
  end.

(** Comparisons, as the [bool] Python computes. *)
Definition lt (x y : R) : bool := if Rlt_dec x y then true else false.
Definition gt (x y : R) : bool := lt y x.
Definition ge (x y : R) : bool := negb (lt x y).
Definition le (x y : R) : bool := negb (lt y x).

(** [max(a, b)] and [min(a, b)] of two numbers: the first argument unless the
    second is strictly larger (smaller). *)
Definition max (a b : R) : R := if lt a b then b else a.
Definition min (a b : R) : R := if lt b a then b else a.

(** [l[i]] for a non-negative index. *)
Definition index {A} (l : list A) (i : nat) : Exc A :=
  match nth_error l i with
  | Some v => ret v
  | None => raise IndexError
  end.

(** *** Name lookup

    A name read in a function body is a local of the function when the
    function binds it somewhere (parameters included); reading such a local
    on a path that has not bound it raises [UnboundLocalError].  Any other
    name is looked up in the module's globals and the builtins, and raises
    [NameError] when it is in neither. *)

Record scope : Type := {
  locals : list string;   (* names the function binds somewhere *)
  bound : list string;    (* the locals bound on the path executed so far *)
  globals : list string   (* module-level names and the builtins in use *)
}.

Definition mem (x : string) (l : list string) : bool := existsb (String.eqb x) l.

Definition load (sc : scope) (x : string) : Exc unit :=
  if mem x sc.(locals) then
    if mem x sc.(bound) then ret tt else raise (UnboundLocalError x)
  else if mem x sc.(globals) then ret tt
  else raise (NameError x).

Fixpoint load_all (sc : scope) (xs : list string) : Exc unit :=
  match xs with
  | [] => ret tt
  | x :: xs' => load sc x ;; load_all sc xs'
  end.

End Py.

Import Py.

(** ** scipy.stats

    [stats.norm] and [stats.t] are library code: the calculators are
    parameterised by the four functions they call.  [t_cdf x df] is
    [stats.t.cdf(x, df)] and [t_ppf q df] is [stats.t.ppf(q, df)]. *)

Record ScipyStats : Type := {
  norm_cdf : R -> R;
  norm_ppf : R -> R;
  t_cdf : R -> R -> R;
  t_ppf : R -> R -> R
}.

(** What the properties below use of these functions: each CDF is strictly
    increasing, takes the value 1/2 at 0, and [ppf] is its inverse on (0,1);
    for Student's t with a positive number of degrees of freedom. *)
Record ScipyLaws (stats : ScipyStats) : Prop := {
  norm_cdf_incr : forall x y, x < y -> norm_cdf stats x < norm_cdf stats y;
  norm_cdf_0 : norm_cdf stats 0 = 1 / 2;
  norm_cdf_ppf : forall q, 0 < q < 1 -> norm_cdf stats (norm_ppf stats q) = q;
  t_cdf_incr : forall df x y, 0 < df -> x < y -> t_cdf stats x df < t_cdf stats y df;
  t_cdf_0 : forall df, 0 < df -> t_cdf stats 0 df = 1 / 2;
  t_cdf_ppf : forall df q, 0 < df -> 0 < q < 1 -> t_cdf stats (t_ppf stats q df) df = q
}.


(** *** A concrete instance of the laws

    The symmetric distribution with CDF [1/2 + x / (2 (c + |x|))], whose
    quantile function is rational.  The scale [c] puts its 0.975 quantile at
    1.95996, the value [stats.norm.ppf0.975] rounds to. *)

Module Sigmoid.

Definition c : R := 195996 / 1900000.

Definition cdf (x : R) : R := 1 / 2 + x / (2 * (c + Rabs x)).

Definition ppf (q : R) : R := c * (2 * q - 1) / (1 - Rabs (2 * q - 1)).

Definition stats : ScipyStats := {|
  norm_cdf := cdf;
  norm_ppf := ppf;
  t_cdf := fun x _ => cdf x;
  t_ppf := fun q _ => ppf q
|}.

End Sigmoid.

(** *** The library at the boundary of a two-tailed test at alpha = 0.01

    The two values of [stats.norm] that a z-test at [alpha = 0.01] reads when
    its statistic is 2.5758293035489008, as scipy computes them in binary64:
    [stats.norm.ppf(0.995)] is 2.5758293035489004, and
    [stats.norm.cdf(2.5758293035489008)] is 0.995 as a float,
    8962163258467287 / 2^53, the same value as [stats.norm.cdf] of the
    quantile itself.  The functions below return these two values; no other
    value of the library is read. *)

Module AtCriticalValue.

Definition ppf_0995 : R := 2.5758293035489004.

Definition cdf_beyond : R := 8962163258467287 / 9007199254740992.

Definition stats : ScipyStats := {|
  norm_cdf := fun _ => cdf_beyond;
  norm_ppf := fun _ => ppf_0995;
  t_cdf := fun _ _ => cdf_beyond;
  t_ppf := fun _ _ => ppf_0995
|}.

End AtCriticalValue.

(** ** binary64

    numpy's reductions compute in IEEE 754 binary64, and what they return
    depends on the rounding of every step.  A finite binary64 number is the
    real number it denotes; [round] takes a real number to the nearest one
    with 53 significant bits (exponent of the last place at least -1074), a
    tie going to the even significand.  A result beyond the largest finite
    number is an infinity: [None] stands for a value that is not a finite
    number, an infinity or nan. *)

Module Binary64.

(** The exponent of the last place of a number [x] with
    [2^(e-1) <= |x| < 2^e]. *)
Definition fexp (e : Z) : Z := Z.max (e - 53) (-1074).

(** The [e] with [2^(e-1) <= |x| < 2^e], for [x <> 0]. *)
Definition mag (x : R) : Z := (Zfloor (ln (Rabs x) / ln 2) + 1)%Z.

(** The nearest integer, the even one of two that are equally near. *)
Definition nearest_even (y : R) : Z :=
  let f := Zfloor y in
  if Rlt_dec (y - IZR f) (1 / 2) then f
  else if Rlt_dec (1 / 2) (y - IZR f) then (f + 1)%Z
  else if Z.even f then f else (f + 1)%Z.

Definition round (x : R) : R :=
  let e := fexp (mag x) in
  IZR (nearest_even (x * powerRZ 2 (- e))) * powerRZ 2 e.

(** [(2^53 - 1) * 2^971], about 1.8e308. *)
Definition max_float : R := IZR (2 ^ 53 - 1) * powerRZ 2 971.

Definition float64 : Type := option R.

(** The binary64 result of an operation whose exact result is [x]. *)
Definition of_real (x : R) : float64 :=
  if Rle_dec (Rabs (round x)) max_float then Some (round x) else None.

Definition add (a b : float64) : float64 :=
  match a, b with
  | Some x, Some y => of_real (x + y)
  | _, _ => None
  end.

Definition sub (a b : float64) : float64 :=
  match a, b with
  | Some x, Some y => of_real (x - y)
  | _, _ => None
  end.

Definition mul (a b : float64) : float64 :=
  match a, b with
  | Some x, Some y => of_real (x * y)
  | _, _ => None
  end.

(** numpy's division: a zero divisor gives an infinity or nan, no
    exception.  (No divisor below is an infinity.) *)
Definition div (a b : float64) : float64 :=
  match a, b with
  | Some x, Some y => if Req_dec_T y 0 then None else of_real (x / y)
  | _, _ => None
  end.

(** [np.sqrt]: nan on a negative number. *)
Definition sqrt (a : float64) : float64 :=
  match a with
  | Some x => if Rlt_dec x 0 then None else of_real (R_sqrt.sqrt x)
  | None => None
  end.

End Binary64.

(** ** numpy functions used by [DescriptiveStats]

    The reductions [np.sum], [np.mean], [np.var] and [np.std] are embedded
    with their binary64 arithmetic, in the order numpy performs it.  The
    order statistics ([np.sort], [np.min], [np.max], [np.median],
    [np.percentile]) select and compare the values of the array, which is
    exact; the interpolation between two neighbours is embedded over the real
    numbers. *)

Module NumPy.
Import Binary64.

(** *** [np.sum]: pairwise summation

    numpy adds an array of fewer than 8 values from left to right, starting
    from 0.  Up to 128 values it keeps 8 partial sums, value [8 i + j] going
    to sum [j], adds them up as a balanced tree and then adds the values
    left over, from left to right.  A longer array is cut at half its
    length, brought down to a multiple of 8, and the sums of the two parts
    are added. *)

(** [res += a[i]] over the array, from left to right. *)
Definition add_each (res : float64) (a : list float64) : float64 :=
  fold_left add a res.

Fixpoint accumulate (blocks : nat) (r a : list float64) : list float64 :=
  match blocks with
  | O => r
  | S blocks' =>
      accumulate blocks'
                 (map (fun p => add (fst p) (snd p)) (combine r (firstn 8 a)))
                 (skipn 8 a)
  end.

Definition block_sum (a : list float64) : float64 :=
  let n := length a in
  if (n <? 8)%nat then add_each (Some 0) a
  else
    match accumulate (n / 8 - 1) (firstn 8 a) (skipn 8 a) with
    | [r0; r1; r2; r3; r4; r5; r6; r7] =>
        let res := add (add (add r0 r1) (add r2 r3)) (add (add r4 r5) (add r6 r7)) in
        add_each res (skipn (8 * (n / 8)) a)
    | _ => None   (* not reached: there are eight partial sums *)
    end.

Definition half (n : nat) : nat := (n / 2 - (n / 2) mod 8)%nat.

Arguments half : simpl never.

Equations pairwise_sum (a : list float64) : float64 by wf (length a) Peano.lt :=
pairwise_sum a with le_lt_dec (length a) 128 := {
  | left _ => block_sum a
  | right _ =>
      add (pairwise_sum (firstn (half (length a)) a))
          (pairwise_sum (skipn (half (length a)) a)) }.
Next Obligation.
  rewrite length_firstn. unfold half.
  assert (length a / 2 < length a)%nat by (apply Nat.div_lt; lia).
  lia.
Qed.
Next Obligation.
  rewrite length_skipn. unfold half.
  assert (8 <= length a / 2)%nat by (apply Nat.div_le_lower_bound; lia).
  pose proof (Nat.mod_upper_bound (length a / 2) 8).
  lia.
Qed.

Definition np_sum (a : list float64) : float64 := pairwise_sum a.

(** The array [np.array(data)] of a list of floats. *)
Definition np_array (data : list R) : list float64 := map Some data.

(** [np.mean(a)]: the sum divided by the number of values; nan on an empty
    array. *)
Definition np_mean (a : list R) : float64 :=
  div (np_sum (np_array a)) (Some (INR (length a))).

(** [np.var(a, ddof=ddof)]: the deviations from the mean are squared (each
    multiplied by itself), summed and divided by [max(N - ddof, 0)]. *)
Definition np_var (a : list R) (ddof : nat) : float64 :=
  let arrmean := div (np_sum (np_array a)) (Some (INR (length a))) in
  let x := map (fun v => sub v arrmean) (np_array a) in
  let x := map (fun d => mul d d) x in
  let ret := np_sum x in
  div ret (Some (INR (length a - ddof))).

(** [np.std(a, ddof=ddof)]: the square root of [np.var]. *)
Definition np_std (a : list R) (ddof : nat) : float64 :=
  Binary64.sqrt (np_var a ddof).

(** [np.max(a)] and [np.min(a)]: [ValueError] on an empty array. *)
Definition np_max (a : list R) : Exc R :=
  match a with
  | [] => raise (ValueError "zero-size array to reduction operation maximum which has no identity")
  | x :: a' => ret (fold_left Rmax a' x)
  end.

Definition np_min (a : list R) : Exc R :=
  match a with
  | [] => raise (ValueError "zero-size array to reduction operation minimum which has no identity")
  | x :: a' => ret (fold_left Rmin a' x)
  end.

(** [np.sort(a)]: the values in non-decreasing order. *)
Fixpoint insert (x : R) (l : list R) : list R :=
  match l with
  | [] => [x]
  | y :: l' => if le x y then x :: l else y :: insert x l'
  end.

Definition np_sort (a : list R) : list R := fold_right insert [] a.

(** [np.median(a)]: the middle value of the sorted array, the mean of the
    two middle values when the length is even; [nan] on an empty array. *)
Definition np_median (a : list R) : option R :=
  match np_sort a with
  | [] => None
  | (x :: _) as s =>
      let n := length s in
      if Nat.odd n then Some (nth (n / 2) s x)
      else Some ((nth (n / 2 - 1) s x + nth (n / 2) s x) / 2)
  end.

(** numpy's [_lerp(a, b, t)]: [a + (b - a) * t], computed from the other
    end, [b - (b - a) * (1 - t)], when [t >= 0.5]. *)
Definition lerp (a b t : R) : R :=
  if ge t 0.5 then b - (b - a) * (1 - t) else a + (b - a) * t.

(** [np.percentile(a, q)] with the default method, linear interpolation:
    the virtual index [q/100 * (N - 1)] into the sorted array, interpolated
    between its two neighbours.  [ValueError] when [q] is outside [0, 100];
    [IndexError] on an empty array, which has no neighbours to index.  The
    result is a number: [Some]. *)
Definition linear_interpolation (s : list R) (x : R) (virtual_index : R) : R :=
  let n := Z.of_nat (length s) in
  let previous := Zfloor virtual_index in
  let next := Z.min (previous + 1) (n - 1) in
  let gamma := virtual_index - IZR previous in
  let lower := nth (Z.to_nat previous) s x in
  let upper := nth (Z.to_nat next) s x in
  lerp lower upper gamma.

Definition np_percentile (a : list R) (q : R) : Exc (option R) :=
  if lt q 0 || lt 100 q
  then raise (ValueError "Percentiles must be in the range [0, 100]")
  else
    match np_sort a with
    | [] => raise IndexError
    | (x :: _) as s =>
        let n := Z.of_nat (length s) in
        ret (Some (linear_interpolation s x (q / 100 * (IZR n - 1))))
    end.

End NumPy.

(** ** api/statistics/descriptive_stats.py *)

Module DescriptiveStats.
Import NumPy.

(** The instance: [__init__] stores the data and its length.  (It also
    stores a sorted copy, which [_calculate_dispersion] does not read.) *)
Record t : Type := {
  data : list R;
  n : nat
}.

Definition __init__ (data : list R) : t :=
  {| data := data; n := length data |}.

(** The [value] entries of the dictionary [_calculate_dispersion] returns. *)
Record dispersion : Type := {
  sample_variance : Binary64.float64;
  sample_std_dev : Binary64.float64;
  population_variance : Binary64.float64;
  population_std_dev : Binary64.float64;
  range : Binary64.float64
}.

Definition _calculate_dispersion (self : t) : Exc dispersion :=
  let sample_var := np_var self.(data) 1 in
  let sample_std := np_std self.(data) 1 in
  let pop_var := np_var self.(data) 0 in
  let pop_std := np_std self.(data) 0 in
  hi <- np_max self.(data) ;;
  lo <- np_min self.(data) ;;
  let range_value := Binary64.sub (Some hi) (Some lo) in
  ret {| sample_variance := sample_var;
         sample_std_dev := sample_std;
         population_variance := pop_var;
         population_std_dev := pop_std;
         range := range_value |}.


(** [self.sorted_data], which [__init__] sets to [np.sort(self.data)]. *)
Definition sorted_data (self : t) : list R := np_sort self.(data).

(** [a[i]] on an array, for an index of either sign. *)
Definition getitem (a : list R) (i : Z) : Exc R :=
  let len := Z.of_nat (length a) in
  let j := if (i <? 0)%Z then (i + len)%Z else i in
  if (0 <=? j)%Z && (j <? len)%Z
  then match nth_error a (Z.to_nat j) with
       | Some v => ret v
       | None => raise IndexError
       end
  else raise IndexError.

(** [np.sum(self.data == val)]. *)
Definition count_equal (a : list R) (v : R) : nat := count_occ Req_dec_T a v.

(** [scipy.stats.mode]: the most frequent value and its count; of several
    values with that count, the smallest. *)
Fixpoint most_frequent (candidates a : list R) (best : R * nat) : R * nat :=
  match candidates with
  | [] => best
  | v :: rest =>
      let c := count_equal a v in
      most_frequent rest a (if (snd best <? c)%nat then (v, c) else best)
  end.

Definition stats_mode (a : list R) : option (R * nat) :=
  match np_sort a with
  | [] => None
  | v :: rest => Some (most_frequent rest a (v, count_equal a v))
  end.

Module Central.
Record result : Type := {
  mean : option R;
  median : option R;
  mode : option R
}.
End Central.

(** Lines 53-115.  The steps of the median read the two middle values of
    [self.sorted_data] when [n] is even. *)
Definition _calculate_central_tendency (self : t) : Exc Central.result :=
  (* Mean calculation *)
  let mean_value := np_mean self.(data) in
  (* Median calculation *)
  let median_value := np_median self.(data) in
  (if Nat.odd self.(n) then ret tt
   else
     let half := Z.of_nat (self.(n) / 2) in
     getitem (sorted_data self) (half - 1) ;;
     getitem (sorted_data self) half ;;
     ret tt) ;;
  (* Mode calculation *)
  let mode_value :=
    match stats_mode self.(data) with
    | Some (v, count) => if (1 <? count)%nat then Some v else None
    | None => None
    end in
  ret {| Central.mean := mean_value;
         Central.median := median_value;
         Central.mode := mode_value |}.

Module FiveNumber.
Record result : Type := {
  minimum : R;
  q1 : option R;
  median : option R;
  q3 : option R;
  maximum : R;
  iqr : option R
}.
End FiveNumber.

(** Lines 251-273. *)
Definition _calculate_five_number_summary (self : t) : Exc FiveNumber.result :=
  minimum <- np_min self.(data) ;;
  q1 <- np_percentile self.(data) 25 ;;
  let median := np_median self.(data) in
  q3 <- np_percentile self.(data) 75 ;;
  maximum <- np_max self.(data) ;;
  let iqr :=
    match q3, q1 with
    | Some hi, Some lo => Some (hi - lo)
    | _, _ => None
    end in
  ret {| FiveNumber.minimum := minimum;
         FiveNumber.q1 := q1;
         FiveNumber.median := median;
         FiveNumber.q3 := q3;
         FiveNumber.maximum := maximum;
         FiveNumber.iqr := iqr |}.

Module Position.
Record result : Type := {
  q1 : option R;
  q2 : option R;
  q3 : option R
}.
End Position.

(** Lines 184-212. *)
Definition _calculate_position (self : t) : Exc Position.result :=
  q1 <- np_percentile self.(data) 25 ;;
  q2 <- np_percentile self.(data) 50 ;;   (* Same as median *)
  q3 <- np_percentile self.(data) 75 ;;
  ret {| Position.q1 := q1; Position.q2 := q2; Position.q3 := q3 |}.

Module CustomPercentile.
Record result : Type := {
  percentile : R;
  value : option R
}.
End CustomPercentile.


Module StandardError.
Record result : Type := {
  standard_error : Binary64.float64;
  margin_of_error : Binary64.float64
}.
End StandardError.

(** Lines 288-322.  The arithmetic is numpy's: it rounds, and a division by
    zero gives a value that is not a number, not an exception. *)
Definition calculate_standard_error (stats : ScipyStats) (self : t)
    (confidence_level : R) : StandardError.result :=
  let sample_std := np_std self.(data) 1 in
  let std_error := Binary64.div sample_std (Binary64.sqrt (Some (INR self.(n)))) in
  (* Critical value for confidence interval *)
  let alpha := 1 - confidence_level in
  let t_critical := t_ppf stats (1 - alpha / 2) (IZR (Z.of_nat self.(n) - 1)) in
  let margin_of_error := Binary64.mul (Some t_critical) std_error in
  {| StandardError.standard_error := std_error;
     StandardError.margin_of_error := margin_of_error |}.

End DescriptiveStats.

(** ** classes/hypothesis_testing.py: class [NormalDistribution] *)

Module NormalDistribution.

Record t : Type := {
  mean : R;
  std_dev : R
}.

(** [__init__] assigns its two arguments and does nothing else. *)
Definition __init__ (mean std_dev : R) : Exc t :=
  ret {| mean := mean; std_dev := std_dev |}.

Record probability_result : Type := {
  probability : R;
  z_score : R;
  percentage : R
}.

Section WithStats.
Variable stats : ScipyStats.

Definition calculate_probability (self : t) (x_value : R) (comparison : string)
  : Exc probability_result :=
  z_score <- div (x_value - self.(mean)) self.(std_dev) ;;
  let probability :=
    if comparison =? "less_than" then norm_cdf stats z_score
    else if comparison =? "greater_than" then 1 - norm_cdf stats z_score
    else norm_cdf stats z_score in
  ret {| probability := probability;
         z_score := z_score;
         percentage := probability * 100 |}.

End WithStats.

(** The other queries of the class. *)

Module ZScore.
Record result : Type := {
  z_score : R;
  interpretation : string
}.
End ZScore.

Module Between.
Record result : Type := {
  probability : R;
  z_scores : list R;
  percentage : R
}.
End Between.

Module Percentile.
Record result : Type := {
  x_value : R;
  z_score : R;
  percentile : R
}.
End Percentile.

Module Critical.
Record result : Type := {
  z_critical_lower : R;
  z_critical_upper : R;
  x_critical_lower : R;
  x_critical_upper : R;
  confidence_level : R
}.
End Critical.

Module Empirical.
Record band : Type := {
  lower : R;
  upper : R;
  percentage : R
}.
Record result : Type := {
  one_std : band;
  two_std : band;
  three_std : band
}.
End Empirical.

Section Queries.
Variable stats : ScipyStats.

(** Lines 24-60. *)
Definition calculate_z_score (self : t) (x_value : R) : Exc ZScore.result :=
  z_score <- div (x_value - self.(mean)) self.(std_dev) ;;
  let interpretation :=
    if lt (Rabs z_score) 1 then
      "Within 1 standard deviation of the mean (common)"
    else if lt (Rabs z_score) 2 then
      "Within 2 standard deviations of the mean (fairly common)"
    else if lt (Rabs z_score) 3 then
      "Within 3 standard deviations of the mean (uncommon)"
    else
      "More than 3 standard deviations from the mean (very rare)" in
  ret {| ZScore.z_score := z_score;
         ZScore.interpretation := interpretation |}.

(** Lines 103-146. *)
Definition calculate_probability_between (self : t) (x1 x2 : R)
  : Exc Between.result :=
  (* Ensure x1 < x2 *)
  let '(x1, x2) := if gt x1 x2 then (x2, x1) else (x1, x2) in
  z1 <- div (x1 - self.(mean)) self.(std_dev) ;;
  z2 <- div (x2 - self.(mean)) self.(std_dev) ;;
  let prob_z1 := norm_cdf stats z1 in
  let prob_z2 := norm_cdf stats z2 in
  let probability := prob_z2 - prob_z1 in
  ret {| Between.probability := probability;
         Between.z_scores := [z1; z2];
         Between.percentage := probability * 100 |}.

(** Lines 148-186.  Nothing in it can raise. *)
Definition find_percentile (self : t) (percentile : R) : Percentile.result :=
  (* Convert percentile to proportion *)
  let p := percentile / 100 in
  (* Find z-score for this percentile *)
  let z_score := norm_ppf stats p in
  (* Convert back to x-value *)
  let x_value := self.(mean) + z_score * self.(std_dev) in
  {| Percentile.x_value := x_value;
     Percentile.z_score := z_score;
     Percentile.percentile := percentile |}.

(** Lines 188-231. *)
Definition find_critical_values (self : t) (confidence_level : R)
  : Critical.result :=
  let alpha := 1 - confidence_level in
  let alpha_half := alpha / 2 in
  (* Find z-critical values *)
  let z_lower := norm_ppf stats alpha_half in
  let z_upper := norm_ppf stats (1 - alpha_half) in
  (* Convert to x-values *)
  let x_lower := self.(mean) + z_lower * self.(std_dev) in
  let x_upper := self.(mean) + z_upper * self.(std_dev) in
  {| Critical.z_critical_lower := z_lower;
     Critical.z_critical_upper := z_upper;
     Critical.x_critical_lower := x_lower;
     Critical.x_critical_upper := x_upper;
     Critical.confidence_level := confidence_level |}.

End Queries.


End NormalDistribution.

(** ** api/routes/stats_routes.py: what [normal_distribution_calculations]
    does with [mean] and [std_dev] before it builds the distribution *)

Module StatsRoutes.

(** A JSON error body with its HTTP status. *)
Definition http_error : Type := (string * Z)%type.

(** [data.get('mean')] and [data.get('std_dev')] are [None] when the key is
    absent. *)
Definition normal_distribution_params (mean std_dev : option R)
  : http_error + Exc NormalDistribution.t :=
  match mean, std_dev with
  | Some m, Some s =>
      if le s 0
      then inl ("Standard deviation must be positive", 400%Z)
      else inr (NormalDistribution.__init__ m s)
  | _, _ => inl ("Mean and standard deviation are required", 400%Z)
  end.

End StatsRoutes.

(** ** api/statistics/confidence_intervals.py *)

Module ConfidenceIntervals.

Module MeanCI.
Record result : Type := {
  confidence_interval : list R;
  lower_bound : R;
  upper_bound : R;
  margin_of_error : R;
  critical_value : R;
  standard_error : R;
  distribution_type : string;
  degrees_of_freedom : option Z;
  confidence_level : R
}.
End MeanCI.

Module ProportionCI.
(** [warning] is [None] or a text that interpolates [np_hat] and [nq_hat];
    the two interpolated numbers stand for the text. *)
Record result : Type := {
  confidence_interval : list R;
  lower_bound : R;
  upper_bound : R;
  margin_of_error : R;
  critical_value : R;
  standard_error : R;
  confidence_level : R;
  sample_proportion : R;
  sample_size : Z;
  warning : option (R * R)
}.
End ProportionCI.

Module ProportionSize.
Record result : Type := {
  sample_size_exact : R;
  sample_size_required : Z;
  margin_error : R;
  confidence_level : R;
  critical_value : R;
  estimated_proportion : R;
  conservative_estimate : bool
}.
End ProportionSize.

Module MeanSize.
Record result : Type := {
  sample_size_exact : R;
  sample_size_required : Z;
  margin_error : R;
  confidence_level : R;
  critical_value : R;
  population_std : R
}.
End MeanSize.

Section WithStats.
Variable stats : ScipyStats.

Definition mean_confidence_interval (sample_mean : R) (sample_size : Z)
    (confidence_level : R) (population_std sample_std : option R)
  : Exc MeanCI.result :=
  let alpha := 1 - confidence_level in
  let alpha_half := alpha / 2 in
  branch <-
    match population_std with
    | Some sigma =>
        (* z-distribution (population std known) *)
        let critical_value := norm_ppf stats (1 - alpha_half) in
        root <- math_sqrt (IZR sample_size) ;;
        std_error <- div sigma root ;;
        ret (critical_value, std_error, "z", @None Z)
    | None =>
        (* t-distribution (population std unknown) *)
        match sample_std with
        | None => raise (ValueError "Either population_std or sample_std must be provided")
        | Some s =>
            let df := (sample_size - 1)%Z in
            let critical_value := t_ppf stats (1 - alpha_half) (IZR df) in
            root <- math_sqrt (IZR sample_size) ;;
            std_error <- div s root ;;
            ret (critical_value, std_error, "t", Some df)
        end
    end ;;
  let '(critical_value, std_error, distribution_type, df) := branch in
  let margin_error := critical_value * std_error in
  let lower_bound := sample_mean - margin_error in
  let upper_bound := sample_mean + margin_error in
  ret {| MeanCI.confidence_interval := [lower_bound; upper_bound];
         MeanCI.lower_bound := lower_bound;
         MeanCI.upper_bound := upper_bound;
         MeanCI.margin_of_error := margin_error;
         MeanCI.critical_value := critical_value;
         MeanCI.standard_error := std_error;
         MeanCI.distribution_type := distribution_type;
         MeanCI.degrees_of_freedom := df;
         MeanCI.confidence_level := confidence_level |}.

Definition proportion_confidence_interval (sample_proportion : R)
    (sample_size : Z) (confidence_level : R) : Exc ProportionCI.result :=
  let alpha := 1 - confidence_level in
  let alpha_half := alpha / 2 in
  (* Check normal approximation conditions *)
  let np_hat := IZR sample_size * sample_proportion in
  let nq_hat := IZR sample_size * (1 - sample_proportion) in
  let warning :=
    if lt np_hat 5 || lt nq_hat 5 then Some (np_hat, nq_hat) else None in
  (* Calculate confidence interval *)
  let z_critical := norm_ppf stats (1 - alpha_half) in
  variance <- div (sample_proportion * (1 - sample_proportion)) (IZR sample_size) ;;
  std_error <- math_sqrt variance ;;
  let margin_error := z_critical * std_error in
  let lower_bound := sample_proportion - margin_error in
  let upper_bound := sample_proportion + margin_error in
  (* Ensure bounds are within [0, 1] *)
  let lower_bound := max 0 lower_bound in
  let upper_bound := min 1 upper_bound in
  ret {| ProportionCI.confidence_interval := [lower_bound; upper_bound];
         ProportionCI.lower_bound := lower_bound;
         ProportionCI.upper_bound := upper_bound;
         ProportionCI.margin_of_error := margin_error;
         ProportionCI.critical_value := z_critical;
         ProportionCI.standard_error := std_error;
         ProportionCI.confidence_level := confidence_level;
         ProportionCI.sample_proportion := sample_proportion;
         ProportionCI.sample_size := sample_size;
         ProportionCI.warning := warning |}.

Definition sample_size_for_proportion (margin_error confidence_level : R)
    (estimated_proportion : option R) : Exc ProportionSize.result :=
  let alpha := 1 - confidence_level in
  let z_critical := norm_ppf stats (1 - alpha / 2) in
  let '(p_estimate, conservative) :=
    match estimated_proportion with
    | None => (0.5, true)    (* 0.5: maximum sample size, most conservative *)
    | Some p => (p, false)
    end in
  (* Calculate sample size: [z_critical] is an [np.float64], the division is
     numpy's and [math.ceil] is what can raise *)
  let n_exact :=
    np_true_divide (z_critical ^ 2 * p_estimate * (1 - p_estimate))
                   (margin_error ^ 2) in
  ceiling <- math_ceil_float64 n_exact ;;
  let '(n_exact, n_required) := ceiling in
  ret {| ProportionSize.sample_size_exact := n_exact;
         ProportionSize.sample_size_required := n_required;
         ProportionSize.margin_error := margin_error;
         ProportionSize.confidence_level := confidence_level;
         ProportionSize.critical_value := z_critical;
         ProportionSize.estimated_proportion := p_estimate;
         ProportionSize.conservative_estimate := conservative |}.


End WithStats.

End ConfidenceIntervals.

(** ** api/statistics/hypothesis_testing.py

    The file holds four methods, in this order: [one_sample_mean_test]
    (lines 17-152), [two_sample_mean_test] (154-280),
    [two_sample_proportion_test] (282-406) and [one_sample_proportion_test]
    (410-509).  Each is embedded as its text reads.  Two places of the text
    stand out: the literal that [one_sample_mean_test] returns ends with the
    entries of a proportion test (lines 149-151), and the entries written for
    a mean test follow the closing brace of line 406, outside any method;
    the text of [one_sample_proportion_test] stops inside its literal, at the
    end of the file. *)

Module HypothesisTesting.

(** Module-level names of the file (its imports and its class) and the
    builtins its methods call. *)
Definition module_globals : list string :=
  ["np"; "stats"; "Dict"; "Any"; "Optional"; "Literal"; "math";
   "HypothesisTesting"; "abs"; "all"].

Module MeanLocals.
(** The locals of [one_sample_mean_test] once the decision is made
    (line 98). *)
Record t : Type := {
  std_error : R;
  test_stat : R;
  distribution_type : string;
  df : option Z;
  critical_values : list R;
  p_value : R;
  reject_null : bool
}.
End MeanLocals.

Module MeanTest.
(** The entries of the returned dictionary whose value is a bound name.  The
    literal has two more entries, ['interpretation'] and ['warning'], which
    read [null_proportion] and [warning]. *)
Record result : Type := {
  test_statistic : R;
  critical_values : list R;
  p_value : R;
  alpha : R;
  reject_null : bool;
  distribution_type : string;
  degrees_of_freedom : option Z;
  standard_error : R;
  test_type : string
}.
End MeanTest.

Module TwoSampleMean.
Record result : Type := {
  test_statistic : R;
  critical_values : list R;
  p_value : R;
  alpha : R;
  reject_null : bool;
  degrees_of_freedom : R;
  standard_error : R;
  test_type : string;
  equal_variances : bool;
  pooled_variance : option R
}.
End TwoSampleMean.

Module TwoSampleProportion.
Record result : Type := {
  test_statistic : R;
  critical_values : list R;
  p_value : R;
  alpha : R;
  reject_null : bool;
  standard_error : R;
  test_type : string;
  sample1_proportion : R;
  sample2_proportion : R;
  pooled_proportion : R;
  warning : option string
}.
End TwoSampleProportion.

Module ProportionTest.
(** [warning] is [None] or a text that interpolates [np0] and [nq0]; the two
    interpolated numbers stand for the text. *)
Record result : Type := {
  test_statistic : R;
  critical_values : list R;
  p_value : R;
  alpha : R;
  reject_null : bool;
  standard_error : R;
  test_type : string;
  sample_proportion : R;
  sample_size : Z;
  null_proportion : R;
  warning : option (R * R)
}.
End ProportionTest.

Section WithStats.
Variable stats : ScipyStats.

(** Critical values and p-value of a z statistic, per tail type.  The three
    z-based computations repeat these lines (61-69, 343-351, 455-463). *)
Definition norm_region (test_type : string) (alpha stat : R) : list R * R :=
  if test_type =? "two-tailed" then
    ([- norm_ppf stats (1 - alpha / 2); norm_ppf stats (1 - alpha / 2)],
     2 * (1 - norm_cdf stats (Rabs stat)))
  else if test_type =? "left-tailed" then
    ([norm_ppf stats alpha], norm_cdf stats stat)
  else (* right-tailed *)
    ([norm_ppf stats (1 - alpha)], 1 - norm_cdf stats stat).

(** The same for a t statistic with [df] degrees of freedom (lines 82-90 and
    226-234). *)
Definition t_region (test_type : string) (alpha stat df : R) : list R * R :=
  if test_type =? "two-tailed" then
    ([- t_ppf stats (1 - alpha / 2) df; t_ppf stats (1 - alpha / 2) df],
     2 * (1 - t_cdf stats (Rabs stat) df))
  else if test_type =? "left-tailed" then
    ([t_ppf stats alpha df], t_cdf stats stat df)
  else (* right-tailed *)
    ([t_ppf stats (1 - alpha) df], 1 - t_cdf stats stat df).

(** The decision, which every method repeats (lines 93-98, 237-242, 354-359,
    466-471). *)
Definition decision (test_type : string) (stat : R) (critical_values : list R)
  : Exc bool :=
  if test_type =? "two-tailed" then
    c <- index critical_values 1 ;; ret (gt (Rabs stat) (Rabs c))
  else if test_type =? "left-tailed" then
    c <- index critical_values 0 ;; ret (lt stat c)
  else (* right-tailed *)
    c <- index critical_values 0 ;; ret (gt stat c).

(** *** [one_sample_mean_test], lines 17-152 *)

(** Lines 52-98: test statistic, critical values, p-value and decision. *)
Definition one_sample_mean_test_locals (sample_mean : R) (sample_size : Z)
    (null_mean alpha : R) (test_type : string)
    (population_std sample_std : option R) : Exc MeanLocals.t :=
  branch <-
    match population_std with
    | Some sigma =>
        (* Z-test (population std known) *)
        root <- math_sqrt (IZR sample_size) ;;
        std_error <- div sigma root ;;
        test_stat <- div (sample_mean - null_mean) std_error ;;
        ret (std_error, test_stat, "z", @None Z,
             norm_region test_type alpha test_stat)
    | None =>
        (* T-test (population std unknown) *)
        match sample_std with
        | None => raise (ValueError "Either population_std or sample_std must be provided")
        | Some s =>
            let df := (sample_size - 1)%Z in
            root <- math_sqrt (IZR sample_size) ;;
            std_error <- div s root ;;
            test_stat <- div (sample_mean - null_mean) std_error ;;
            ret (std_error, test_stat, "t", Some df,
                 t_region test_type alpha test_stat (IZR df))
        end
    end ;;
  let '(std_error, test_stat, distribution_type, df, (critical_values, p_value)) := branch in
  reject_null <- decision test_type test_stat critical_values ;;
  ret {| MeanLocals.std_error := std_error;
         MeanLocals.test_stat := test_stat;
         MeanLocals.distribution_type := distribution_type;
         MeanLocals.df := df;
         MeanLocals.critical_values := critical_values;
         MeanLocals.p_value := p_value;
         MeanLocals.reject_null := reject_null |}.

(** The names in scope at the [return] of [one_sample_mean_test]: its
    parameters and the names it assigns, all bound on every path that reaches
    line 134. *)
Definition one_sample_mean_test_names : list string :=
  ["self"; "sample_mean"; "sample_size"; "null_mean"; "alpha"; "test_type";
   "population_std"; "sample_std"; "h0"; "h1"; "std_error"; "test_stat";
   "distribution_type"; "df"; "critical_values"; "p_value"; "reject_null";
   "steps"].

Definition one_sample_mean_test_scope : scope :=
  {| locals := one_sample_mean_test_names;
     bound := one_sample_mean_test_names;
     globals := module_globals |}.

(** The names the dictionary literal of lines 134-152 reads, entry by entry:
    ['test_statistic'] to ['alternative_hypothesis'], ['formula'], ['steps'],
    ['conclusion'], ['interpretation'], ['warning'].  (['description'] is a
    plain string.) *)
Definition one_sample_mean_test_reads : list string :=
  ["test_stat"; "critical_values"; "p_value"; "alpha"; "reject_null";
   "distribution_type"; "df"; "std_error"; "test_type"; "h0"; "h1";
   "distribution_type"; "population_std";
   "steps";
   "reject_null"; "alpha";
   "reject_null"; "test_type"; "null_proportion";
   "warning"].

Definition one_sample_mean_test (sample_mean : R) (sample_size : Z)
    (null_mean alpha : R) (test_type : string)
    (population_std sample_std : option R) : Exc MeanTest.result :=
  l <- one_sample_mean_test_locals sample_mean sample_size null_mean alpha
         test_type population_std sample_std ;;
  load_all one_sample_mean_test_scope one_sample_mean_test_reads ;;
  ret {| MeanTest.test_statistic := l.(MeanLocals.test_stat);
         MeanTest.critical_values := l.(MeanLocals.critical_values);
         MeanTest.p_value := l.(MeanLocals.p_value);
         MeanTest.alpha := alpha;
         MeanTest.reject_null := l.(MeanLocals.reject_null);
         MeanTest.distribution_type := l.(MeanLocals.distribution_type);
         MeanTest.degrees_of_freedom := l.(MeanLocals.df);
         MeanTest.standard_error := l.(MeanLocals.std_error);
         MeanTest.test_type := test_type |}.

(** *** [two_sample_mean_test], lines 154-280 *)

(** The names in scope at the [return] (line 262).  [pooled_var] and
    [pooled_std] are bound by the pooled branch only (lines 195-196),
    [numerator] and [denominator] by Welch's branch only (lines 212-213). *)
Definition two_sample_mean_test_names : list string :=
  ["self"; "sample1_mean"; "sample1_size"; "sample1_std"; "sample2_mean";
   "sample2_size"; "sample2_std"; "alpha"; "test_type"; "equal_variances";
   "h0"; "h1"; "pooled_var"; "pooled_std"; "std_error"; "df";
   "variance_steps"; "numerator"; "denominator"; "t_stat";
   "critical_values"; "p_value"; "reject_null"; "steps"].

Definition two_sample_mean_test_scope (equal_variances : bool) : scope :=
  {| locals := two_sample_mean_test_names;
     bound :=
       ["self"; "sample1_mean"; "sample1_size"; "sample1_std"; "sample2_mean";
        "sample2_size"; "sample2_std"; "alpha"; "test_type"; "equal_variances";
        "h0"; "h1"]
       ++ (if equal_variances
           then ["pooled_var"; "pooled_std"; "std_error"; "df"; "variance_steps"]
           else ["std_error"; "numerator"; "denominator"; "df"; "variance_steps"])
       ++ ["t_stat"; "critical_values"; "p_value"; "reject_null"; "steps"];
     globals := module_globals |}.

(** The names the dictionary literal of lines 262-280 reads.  The entry
    ['pooled_variance'] is the conditional expression
    [pooled_var if equal_variances else None]: it reads [equal_variances],
    and [pooled_var] only when that is true. *)
Definition two_sample_mean_test_reads (equal_variances : bool) : list string :=
  ["t_stat"; "critical_values"; "p_value"; "alpha"; "reject_null"; "df";
   "std_error"; "test_type"; "equal_variances"; "h0"; "h1"]
  ++ "equal_variances" :: (if equal_variances then ["pooled_var"] else [])
  ++ ["steps"; "reject_null"; "alpha"; "reject_null"; "equal_variances"].

Definition two_sample_mean_test (sample1_mean : R) (sample1_size : Z)
    (sample1_std sample2_mean : R) (sample2_size : Z) (sample2_std alpha : R)
    (test_type : string) (equal_variances : bool)
  : Exc TwoSampleMean.result :=
  branch <-
    (if equal_variances then
       (* Pooled variance t-test *)
       pooled_var <- div (IZR (sample1_size - 1) * sample1_std ^ 2
                          + IZR (sample2_size - 1) * sample2_std ^ 2)
                         (IZR (sample1_size + sample2_size - 2)) ;;
       pooled_std <- math_sqrt pooled_var ;;
       i1 <- div 1 (IZR sample1_size) ;;
       i2 <- div 1 (IZR sample2_size) ;;
       root <- math_sqrt (i1 + i2) ;;
       let std_error := pooled_std * root in
       let df := IZR (sample1_size + sample2_size - 2) in
       ret (std_error, df, Some pooled_var)
     else
       (* Welch's t-test (unequal variances); lines 212-213 divide
          [sample1_std**2] by [sample1_size] (and likewise for sample 2)
          again, with the quotients [v1] and [v2] of line 210 *)
       v1 <- div (sample1_std ^ 2) (IZR sample1_size) ;;
       v2 <- div (sample2_std ^ 2) (IZR sample2_size) ;;
       std_error <- math_sqrt (v1 + v2) ;;
       let numerator := (v1 + v2) ^ 2 in
       d1 <- div (v1 ^ 2) (IZR (sample1_size - 1)) ;;
       d2 <- div (v2 ^ 2) (IZR (sample2_size - 1)) ;;
       let denominator := d1 + d2 in
       df <- div numerator denominator ;;
       ret (std_error, df, @None R)) ;;
  let '(std_error, df, pooled_var) := branch in
  (* Calculate test statistic *)
  t_stat <- div (sample1_mean - sample2_mean) std_error ;;
  let '(critical_values, p_value) := t_region test_type alpha t_stat df in
  reject_null <- decision test_type t_stat critical_values ;;
  load_all (two_sample_mean_test_scope equal_variances)
           (two_sample_mean_test_reads equal_variances) ;;
  ret {| TwoSampleMean.test_statistic := t_stat;
         TwoSampleMean.critical_values := critical_values;
         TwoSampleMean.p_value := p_value;
         TwoSampleMean.alpha := alpha;
         TwoSampleMean.reject_null := reject_null;
         TwoSampleMean.degrees_of_freedom := df;
         TwoSampleMean.standard_error := std_error;
         TwoSampleMean.test_type := test_type;
         TwoSampleMean.equal_variances := equal_variances;
         TwoSampleMean.pooled_variance :=
           if equal_variances then pooled_var else None |}.

(** *** [two_sample_proportion_test], lines 282-406 *)

Definition two_sample_proportion_test (sample1_successes sample1_size
    sample2_successes sample2_size : Z) (alpha : R) (test_type : string)
  : Exc TwoSampleProportion.result :=
  (* Calculate sample proportions *)
  p1_hat <- div (IZR sample1_successes) (IZR sample1_size) ;;
  p2_hat <- div (IZR sample2_successes) (IZR sample2_size) ;;
  (* Calculate pooled proportion *)
  p_pooled <- div (IZR (sample1_successes + sample2_successes))
                  (IZR (sample1_size + sample2_size)) ;;
  let q_pooled := 1 - p_pooled in
  (* Check normal approximation conditions *)
  let conditions :=
    [ge (IZR sample1_size * p_pooled) 5;
     ge (IZR sample1_size * q_pooled) 5;
     ge (IZR sample2_size * p_pooled) 5;
     ge (IZR sample2_size * q_pooled) 5] in
  let warning :=
    if negb (forallb (fun b => b) conditions)
    then Some "Warning: Normal approximation conditions not met. All of n₁p̂, n₁q̂, n₂p̂, n₂q̂ should be ≥ 5."
    else None in
  (* Calculate standard error *)
  i1 <- div 1 (IZR sample1_size) ;;
  i2 <- div 1 (IZR sample2_size) ;;
  std_error <- math_sqrt (p_pooled * q_pooled * (i1 + i2)) ;;
  (* Calculate test statistic *)
  z_stat <- div (p1_hat - p2_hat) std_error ;;
  let '(critical_values, p_value) := norm_region test_type alpha z_stat in
  reject_null <- decision test_type z_stat critical_values ;;
  ret {| TwoSampleProportion.test_statistic := z_stat;
         TwoSampleProportion.critical_values := critical_values;
         TwoSampleProportion.p_value := p_value;
         TwoSampleProportion.alpha := alpha;
         TwoSampleProportion.reject_null := reject_null;
         TwoSampleProportion.standard_error := std_error;
         TwoSampleProportion.test_type := test_type;
         TwoSampleProportion.sample1_proportion := p1_hat;
         TwoSampleProportion.sample2_proportion := p2_hat;
         TwoSampleProportion.pooled_proportion := p_pooled;
         TwoSampleProportion.warning := warning |}.

(** *** [one_sample_proportion_test], lines 410-509

    The text of this method stops inside its dictionary literal, in the
    ['interpretation'] entry (line 509, the end of the file).  Lines 430-471
    compute every local; the entries ['test_statistic'] to ['conclusion']
    (lines 494-508) are in the text. *)

(** Modelled from the spec: the entry of the result that carries the local
    [warning] of lines 434-437 is past the end of the method's text; the
    result carries an optional [warning] (spec 3), emitted when
    [n * p0 < 5] or [n * (1 - p0) < 5] (spec 4.4), and the local is that
    value. *)
Definition one_sample_proportion_test_warning_entry
    (warning : option (R * R)) : option (R * R) := warning.

Definition one_sample_proportion_test (sample_proportion : R)
    (sample_size : Z) (null_proportion alpha : R) (test_type : string)
  : Exc ProportionTest.result :=
  (* Check normal approximation conditions *)
  let np0 := IZR sample_size * null_proportion in
  let nq0 := IZR sample_size * (1 - null_proportion) in
  let warning := if lt np0 5 || lt nq0 5 then Some (np0, nq0) else None in
  (* Calculate test statistic *)
  variance <- div (null_proportion * (1 - null_proportion)) (IZR sample_size) ;;
  std_error <- math_sqrt variance ;;
  z_stat <- div (sample_proportion - null_proportion) std_error ;;
  let '(critical_values, p_value) := norm_region test_type alpha z_stat in
  reject_null <- decision test_type z_stat critical_values ;;
  ret {| ProportionTest.test_statistic := z_stat;
         ProportionTest.critical_values := critical_values;
         ProportionTest.p_value := p_value;
         ProportionTest.alpha := alpha;
         ProportionTest.reject_null := reject_null;
         ProportionTest.standard_error := std_error;
         ProportionTest.test_type := test_type;
         ProportionTest.sample_proportion := sample_proportion;
         ProportionTest.sample_size := sample_size;
         ProportionTest.null_proportion := null_proportion;
         ProportionTest.warning :=
           one_sample_proportion_test_warning_entry warning |}.

End WithStats.

End HypothesisTesting.

(** * Properties *)

(** ** Facts about the Python layer *)

Module PyFacts.

Lemma div_ok x y : y <> 0 -> div x y = inr (x / y).
Proof.
  intros Hy. unfold div. destruct (Req_dec_T y 0) as [E | _]; [contradiction | reflexivity].
Qed.

Lemma div_zero x : div x 0 = inl ZeroDivisionError.
Proof.
  unfold div. destruct (Req_dec_T 0 0) as [_ | N]; [reflexivity | contradiction].
Qed.

Lemma div_inv x y q : div x y = inr q -> y <> 0 /\ q = x / y.
Proof.
  unfold div. destruct (Req_dec_T y 0) as [E | N]; cbn; intros H.
  - discriminate.
  - injection H as <-. split; [assumption | reflexivity].
Qed.

Lemma div_error x y e : div x y = inl e -> e = ZeroDivisionError.
Proof.
  unfold div. destruct (Req_dec_T y 0); cbn; intros H; [congruence | discriminate].
Qed.




Lemma math_sqrt_ok x : 0 <= x -> math_sqrt x = inr (sqrt x).
Proof.
  intros Hx. unfold math_sqrt. destruct (Rlt_dec x 0); [lra | reflexivity].
Qed.

Lemma math_sqrt_inv x r : math_sqrt x = inr r -> 0 <= x /\ r = sqrt x.
Proof.
  unfold math_sqrt. destruct (Rlt_dec x 0); cbn; intros H.
  - discriminate.
  - injection H as <-. split; [lra | reflexivity].
Qed.

Lemma math_sqrt_error x e : math_sqrt x = inl e -> e = ValueError "math domain error".
Proof.
  unfold math_sqrt. destruct (Rlt_dec x 0); cbn; intros H; [congruence | discriminate].
Qed.

Lemma lt_true x y : lt x y = true <-> x < y.
Proof.
  unfold lt. destruct (Rlt_dec x y); split; intros; try assumption; try reflexivity;
    [discriminate | contradiction].
Qed.

Lemma lt_false x y : lt x y = false <-> y <= x.
Proof.
  unfold lt. destruct (Rlt_dec x y); split; intros; try reflexivity; try lra; discriminate.
Qed.

Lemma gt_true x y : gt x y = true <-> y < x.
Proof. apply lt_true. Qed.

Lemma le_true x y : le x y = true <-> x <= y.
Proof.
  unfold le. rewrite negb_true_iff. apply lt_false.
Qed.


Lemma max_0_bounds x : 0 <= max 0 x /\ x <= max 0 x.
Proof.
  unfold max. destruct (lt 0 x) eqn:E.
  - apply lt_true in E. lra.
  - apply lt_false in E. lra.
Qed.

Lemma min_1_bounds x : min 1 x <= 1 /\ min 1 x <= x.
Proof.
  unfold min. destruct (lt x 1) eqn:E.
  - apply lt_true in E. lra.
  - apply lt_false in E. lra.
Qed.

Lemma max_lower a x : a <= x -> 0 <= x -> max 0 a <= x.
Proof.
  intros. unfold max. destruct (lt 0 a); assumption.
Qed.

Lemma min_upper b x : x <= b -> x <= 1 -> x <= min 1 b.
Proof.
  intros. unfold min. destruct (lt b 1); assumption.
Qed.

(** A lookup fails only with one of the two undefined-variable errors. *)
Lemma load_error sc x e : load sc x = inl e -> undefined_variable e = true.
Proof.
  unfold load. destruct (mem x (locals sc)), (mem x (bound sc)), (mem x (globals sc));
    cbn; intros H; try discriminate; injection H as <-; reflexivity.
Qed.

End PyFacts.

(** ** The concrete distribution satisfies the laws *)

Module SigmoidFacts.
Import Sigmoid.

Lemma c_pos : 0 < c.
Proof. unfold c. lra. Qed.

Lemma frac_lt x a y b : 0 < a -> 0 < b -> x * b < y * a -> x / a < y / b.
Proof.
  intros Ha Hb H.
  assert (E : y / b - x / a = (y * a - x * b) / (a * b)) by (field; lra).
  assert (P : 0 < (y * a - x * b) / (a * b)).
  { apply Rdiv_lt_0_compat; nra. }
  lra.
Qed.

Lemma sigmoid_cdf_increasing x y : x < y -> cdf x < cdf y.
Proof.
  intros H. pose proof c_pos as Hc. unfold cdf.
  apply Rplus_lt_compat_l.
  unfold Rabs. destruct (Rcase_abs x), (Rcase_abs y); apply frac_lt; nra.
Qed.

Lemma sigmoid_cdf_at_0 : cdf 0 = 1 / 2.
Proof.
  pose proof c_pos. unfold cdf. rewrite Rabs_R0. field. lra.
Qed.

Lemma sigmoid_cdf_of_ppf q : 0 < q < 1 -> cdf (ppf q) = q.
Proof.
  intros [H0 H1]. pose proof c_pos as Hc. unfold cdf, ppf.
  destruct (Rcase_abs (2 * q - 1)) as [N | P].
  - rewrite (Rabs_left (2 * q - 1)) by assumption.
    assert (S : c * (2 * q - 1) / (1 - - (2 * q - 1)) < 0).
    { apply Ropp_lt_cancel. rewrite Ropp_0.
      replace (- (c * (2 * q - 1) / (1 - - (2 * q - 1))))
        with (c * (1 - 2 * q) / (2 * q)) by (field; lra).
      apply Rdiv_lt_0_compat; nra. }
    rewrite (Rabs_left _ S). field. lra.
  - rewrite (Rabs_right (2 * q - 1)) by assumption.
    assert (S : c * (2 * q - 1) / (1 - (2 * q - 1)) >= 0).
    { apply Rle_ge. apply Rle_mult_inv_pos; nra. }
    rewrite (Rabs_right _ S). field. lra.
Qed.

Lemma sigmoid_laws : ScipyLaws stats.
Proof.
  constructor; cbn; intros.
  - apply sigmoid_cdf_increasing; assumption.
  - apply sigmoid_cdf_at_0.
  - apply sigmoid_cdf_of_ppf; assumption.
  - apply sigmoid_cdf_increasing; assumption.
  - apply sigmoid_cdf_at_0.
  - apply sigmoid_cdf_of_ppf; assumption.
Qed.


End SigmoidFacts.

(** ** Quantiles of a symmetric, strictly increasing CDF *)

Section Quantiles.
Variables cdf ppf : R -> R.
Hypothesis cdf_incr : forall x y, x < y -> cdf x < cdf y.
Hypothesis cdf_0 : cdf 0 = 1 / 2.
Hypothesis cdf_ppf : forall q, 0 < q < 1 -> cdf (ppf q) = q.

Lemma cdf_lt_inv x y : cdf x < cdf y -> x < y.
Proof.
  intros H. destruct (Rlt_dec x y) as [L | N]; [assumption |].
  destruct (Req_dec x y) as [-> | D]; [lra |].
  assert (L : y < x) by lra. apply cdf_incr in L. lra.
Qed.

(** An upper quantile is positive. *)
Lemma ppf_upper_pos q : 1 / 2 < q < 1 -> 0 < ppf q.
Proof.
  intros H. apply cdf_lt_inv. rewrite cdf_0, cdf_ppf; lra.
Qed.


End Quantiles.

(** ** binary64 rounding *)

Module Binary64Facts.
Import Binary64.

Lemma ln_2_pos : 0 < ln 2.
Proof. pose proof ln_lt_2. lra. Qed.

Lemma ln_powerRZ_2 (k : Z) : ln (powerRZ 2 k) = IZR k * ln 2.
Proof.
  rewrite powerRZ_Rpower by lra. unfold Rpower. apply ln_exp.
Qed.

Lemma powerRZ_2_pos (k : Z) : 0 < powerRZ 2 k.
Proof. apply powerRZ_lt. lra. Qed.

Lemma powerRZ_2_IZR (k : Z) : (0 <= k)%Z -> powerRZ 2 k = IZR (2 ^ k).
Proof.
  intros Hk. rewrite <- (Z2Nat.id k Hk).
  rewrite <- pow_powerRZ, pow_IZR. reflexivity.
Qed.

Lemma mag_unique (x : R) (e : Z) :
  powerRZ 2 (e - 1) <= Rabs x < powerRZ 2 e -> mag x = e.
Proof.
  intros [Hlo Hhi].
  pose proof (powerRZ_2_pos (e - 1)) as Hp.
  assert (Hx : 0 < Rabs x) by lra.
  pose proof ln_2_pos as H2.
  unfold mag.
  assert (E : Zfloor (ln (Rabs x) / ln 2) = (e - 1)%Z).
  { apply Zfloor_eq.
    assert (L1 : IZR (e - 1) * ln 2 <= ln (Rabs x)).
    { rewrite <- ln_powerRZ_2.
      destruct Hlo as [Hlo | Hlo].
      - left. apply ln_increasing; assumption.
      - rewrite Hlo. right. reflexivity. }
    assert (L2 : ln (Rabs x) < IZR e * ln 2).
    { rewrite <- ln_powerRZ_2. apply ln_increasing; assumption. }
    rewrite minus_IZR in *.
    split.
    - apply Rmult_le_reg_r with (ln 2); [assumption |].
      unfold Rdiv. rewrite Rmult_assoc, Rinv_l by lra. lra.
    - apply Rmult_lt_reg_r with (ln 2); [assumption |].
      unfold Rdiv. rewrite Rmult_assoc, Rinv_l by lra. lra. }
  rewrite E. lia.
Qed.

Lemma nearest_even_eq (y : R) (m : Z) :
  Rabs (y - IZR m) < 1 / 2 -> nearest_even y = m.
Proof.
  intros H. apply Rabs_def2 in H as [H1 H2].
  unfold nearest_even.
  destruct (Rle_lt_dec (IZR m) y) as [Hle | Hlt].
  - assert (E : Zfloor y = m) by (apply Zfloor_eq; lra).
    rewrite E. destruct (Rlt_dec (y - IZR m) (1 / 2)); [reflexivity | lra].
  - assert (E : Zfloor y = (m - 1)%Z).
    { apply Zfloor_eq. rewrite minus_IZR. lra. }
    rewrite E, minus_IZR.
    destruct (Rlt_dec (y - (IZR m - 1)) (1 / 2)); [lra |].
    destruct (Rlt_dec (1 / 2) (y - (IZR m - 1))); [lia | lra].
Qed.


Lemma nearest_even_bound (y : R) : Rabs (y - IZR (nearest_even y)) <= 1 / 2.
Proof.
  unfold nearest_even. pose proof (Zfloor_bound y) as [B1 B2].
  set (f := Zfloor y) in *.
  destruct (Rlt_dec (y - IZR f) (1 / 2)).
  - rewrite Rabs_pos_eq; lra.
  - destruct (Rlt_dec (1 / 2) (y - IZR f)).
    + rewrite plus_IZR, Rabs_left1; lra.
    + destruct (Z.even f).
      * rewrite Rabs_pos_eq; lra.
      * rewrite plus_IZR, Rabs_left1; lra.
Qed.

(** A number with its last place at [2^e] is rounded on that scale. *)
Lemma round_eq (x : R) (e : Z) :
  (-1074 <= e)%Z ->
  powerRZ 2 (e + 52) <= Rabs x < powerRZ 2 (e + 53) ->
  round x = IZR (nearest_even (x * powerRZ 2 (- e))) * powerRZ 2 e.
Proof.
  intros He Hx. unfold round.
  assert (M : mag x = (e + 53)%Z).
  { apply mag_unique. replace (e + 53 - 1)%Z with (e + 52)%Z by lia. exact Hx. }
  rewrite M. unfold fexp.
  replace (Z.max (e + 53 - 53) (-1074)) with e by lia.
  reflexivity.
Qed.


Lemma max_float_ge : 9007199254740992 <= max_float.
Proof.
  unfold max_float.
  replace 971%Z with (1 + 970)%Z by reflexivity.
  rewrite powerRZ_add by lra.
  assert (H : 1 <= powerRZ 2 970).
  { rewrite powerRZ_2_IZR by lia. apply IZR_le. apply Z.lt_pred_le.
    apply Z.pow_pos_nonneg; lia. }
  change (powerRZ 2 1) with (2 * 1).
  replace (2 ^ 53 - 1)%Z with 9007199254740991%Z by reflexivity.
  nra.
Qed.


(** The same on the scale [d = 2^k] of a number below [2^53], with the
    bounds as inequalities between numerals: a number [x] with 53 significant
    bits on that scale has the binary64 value [m / d], for the integer [m]
    nearest to [x * d]. *)
Lemma of_real_scaled (x : R) (m d k : Z) :
  (0 <= k <= 1074)%Z -> d = (2 ^ k)%Z ->
  (4503599627370496 <= x * IZR d < 9007199254740992 \/
   4503599627370496 <= - (x * IZR d) < 9007199254740992) ->
  nearest_even (x * IZR d) = m ->
  of_real x = Some (IZR m / IZR d).
Proof.
  intros Hk Hd Hb Hm.
  assert (Ed : IZR d = powerRZ 2 k) by (rewrite Hd, powerRZ_2_IZR by lia; reflexivity).
  assert (Dp : 0 < IZR d) by (rewrite Ed; apply powerRZ_2_pos).
  assert (Ax : 4503599627370496 <= Rabs (x * IZR d) < 9007199254740992).
  { destruct Hb as [Hb | Hb].
    - rewrite Rabs_pos_eq by lra. exact Hb.
    - rewrite Rabs_left1 by lra. exact Hb. }
  assert (R : round x = IZR m / IZR d).
  { rewrite (round_eq x (- k)).
    - rewrite Z.opp_involutive, powerRZ_neg', <- Ed, Hm. reflexivity.
    - lia.
    - rewrite Rabs_mult, (Rabs_pos_eq (IZR d)) in Ax by lra.
      replace (- k + 52)%Z with (52 + - k)%Z by lia.
      replace (- k + 53)%Z with (53 + - k)%Z by lia.
      rewrite !powerRZ_add, powerRZ_neg', <- Ed by lra.
      rewrite (powerRZ_2_IZR 52), (powerRZ_2_IZR 53) by lia.
      replace (2 ^ 52)%Z with 4503599627370496%Z by reflexivity.
      replace (2 ^ 53)%Z with 9007199254740992%Z by reflexivity.
      pose proof (Rinv_0_lt_compat _ Dp) as Hi.
      split.
      + apply Rmult_le_reg_r with (IZR d); [assumption |].
        rewrite Rmult_assoc, Rinv_l by lra. lra.
      + apply Rmult_lt_reg_r with (IZR d); [assumption |].
        rewrite Rmult_assoc, Rinv_l by lra. lra. }
  unfold of_real. rewrite R.
  destruct (Rle_dec (Rabs (IZR m / IZR d)) max_float) as [_ | N]; [reflexivity |].
  exfalso. apply N. clear N.
  apply Rle_trans with 9007199254740992; [| apply max_float_ge].
  assert (D1 : 1 <= IZR d).
  { rewrite Hd. apply IZR_le. apply Z.lt_pred_le. apply Z.pow_pos_nonneg; lia. }
  unfold Rdiv.
  rewrite Rabs_mult, (Rabs_pos_eq (/ IZR d)) by (left; apply Rinv_0_lt_compat; lra).
  apply Rmult_le_reg_r with (IZR d); [assumption |].
  rewrite Rmult_assoc, Rinv_l by lra.
  assert (Am : Rabs (IZR m) <= Rabs (x * IZR d) + 1 / 2).
  { replace (IZR m) with (x * IZR d - (x * IZR d - IZR m)) at 1 by ring.
    eapply Rle_trans; [apply Rabs_triang |].
    rewrite Rabs_Ropp.
    pose proof (nearest_even_bound (x * IZR d)) as B. rewrite Hm in B. lra. }
  rewrite <- abs_IZR in *.
  assert (Zm : (Z.abs m < 9007199254740993)%Z) by (apply lt_IZR; lra).
  assert (Rm : IZR (Z.abs m) <= 9007199254740992) by (apply IZR_le; lia).
  nra.
Qed.

(** [binary64 x m d k]: the binary64 value of [x] is [m / d], with
    [d = 2^k] and [m] within half a unit of [x * d]. *)
Ltac binary64 x m d k :=
  rewrite (of_real_scaled x m d k);
  [ | lia | reflexivity | first [left; lra | right; lra]
    | apply nearest_even_eq; apply Rabs_def1; lra ].


(** The float nearest to one tenth is
    0.1000000000000000055511151231257827. *)
Example one_tenth : of_real (1 / 10) = Some (7205759403792794 / 72057594037927936).
Proof. binary64 (1 / 10) 7205759403792794%Z 72057594037927936%Z 56%Z. reflexivity. Qed.

End Binary64Facts.

(** ** DescriptiveStats *)

Module DescriptiveStatsSpec.
Import Binary64 Binary64Facts NumPy DescriptiveStats.




(** *** The dataset 0, 17, -1 in binary64 *)








End DescriptiveStatsSpec.

(** ** NormalDistribution *)

Module NormalDistributionSpec.
Import NormalDistribution.

(** C4, as the specification states it, fails: with [std_dev = -1 <= 0] the
    constructor does not raise. *)
Lemma construction_with_negative_std_dev_does_not_fail :
  -1 <= 0 /\ ~ (exists e, __init__ 0 (-1) = inl e).
Proof.
  split; [lra |]. intros [e H]. discriminate H.
Qed.

(** C4, amended.  The constructor checks nothing: for every [mean] and
    [std_dev] it returns an instance that stores both.  A [std_dev <= 0] is
    turned away by the caller: the web route answers 400 without building
    the distribution, and builds it when [std_dev > 0]. *)
Theorem construction_never_fails_and_route_rejects_nonpositive_std_dev :
  (forall mean std_dev,
      __init__ mean std_dev = inr {| mean := mean; std_dev := std_dev |}) /\
  (forall mean std_dev, std_dev <= 0 ->
      StatsRoutes.normal_distribution_params (Some mean) (Some std_dev)
      = inl ("Standard deviation must be positive", 400%Z)) /\
  (forall mean std_dev, 0 < std_dev ->
      StatsRoutes.normal_distribution_params (Some mean) (Some std_dev)
      = inr (__init__ mean std_dev)).
Proof.
  split; [reflexivity |]. split; intros m s H; unfold StatsRoutes.normal_distribution_params.
  - rewrite (proj2 (PyFacts.le_true s 0) H). reflexivity.
  - destruct (le s 0) eqn:E; [| reflexivity].
    apply PyFacts.le_true in E. lra.
Qed.

Lemma construction_never_fails_and_route_rejects_nonpositive_std_dev_witness :
  __init__ 0 (-1) = inr {| mean := 0; std_dev := -1 |} /\
  StatsRoutes.normal_distribution_params (Some 0) (Some (-1))
  = inl ("Standard deviation must be positive", 400%Z) /\
  StatsRoutes.normal_distribution_params (Some 0) (Some 1) = inr (__init__ 0 1).
Proof.
  destruct construction_never_fails_and_route_rejects_nonpositive_std_dev
    as (A & B & C).
  split; [apply A |]. split; [apply B; lra | apply C; lra].
Defined.

(** An instance built with [std_dev = 0] is of no use to
    [calculate_probability]: the z-score divides by it. *)
Lemma calculate_probability_zero_std_dev stats mean x comparison :
  calculate_probability stats {| mean := mean; std_dev := 0 |} x comparison
  = inl ZeroDivisionError.
Proof.
  unfold calculate_probability. cbn [NormalDistribution.mean NormalDistribution.std_dev].
  rewrite PyFacts.div_zero. reflexivity.
Qed.

(** C7. [calculate_probability(x, 'equal_to')] computes what
    [calculate_probability(x, 'less_than')] computes: the CDF at the z-score
    of [x], not 0.  (When [std_dev] is 0 both calls raise
    [ZeroDivisionError].) *)
Theorem equal_to_is_less_than stats (self : t) (x : R) :
  calculate_probability stats self x "equal_to"
  = calculate_probability stats self x "less_than" /\
  (std_dev self <> 0 ->
   exists r,
     calculate_probability stats self x "equal_to" = inr r /\
     probability r = norm_cdf stats ((x - mean self) / std_dev self)).
Proof.
  split; [reflexivity |].
  intros H. unfold calculate_probability.
  rewrite PyFacts.div_ok by assumption.
  eexists. split; reflexivity.
Qed.

Lemma equal_to_is_less_than_witness :
  calculate_probability Sigmoid.stats {| mean := 100; std_dev := 15 |} 110 "equal_to"
  = calculate_probability Sigmoid.stats {| mean := 100; std_dev := 15 |} 110 "less_than" /\
  exists r,
    calculate_probability Sigmoid.stats {| mean := 100; std_dev := 15 |} 110 "equal_to"
    = inr r /\
    probability r = norm_cdf Sigmoid.stats ((110 - 100) / 15).
Proof.
  destruct (equal_to_is_less_than Sigmoid.stats {| mean := 100; std_dev := 15 |} 110)
    as [A B].
  split; [exact A |]. apply B. cbn. lra.
Defined.

End NormalDistributionSpec.

(** ** ConfidenceIntervals *)

Module ConfidenceIntervalsSpec.
Import ConfidenceIntervals.

Section WithStats.
Variable stats : ScipyStats.
Hypothesis laws : ScipyLaws stats.

(** The critical value of a confidence level in (0,1) is positive. *)
Lemma z_critical_pos cl : 0 < cl < 1 -> 0 < norm_ppf stats (1 - (1 - cl) / 2).
Proof.
  intros H.
  apply (ppf_upper_pos (norm_cdf stats) (norm_ppf stats)).
  - apply (norm_cdf_incr _ laws).
  - apply (norm_cdf_0 _ laws).
  - apply (norm_cdf_ppf _ laws).
  - lra.
Qed.

(** C6. With a sample proportion in [0,1], a positive sample size and a
    confidence level in (0,1), [proportion_confidence_interval] returns, and
    the interval it returns is the pair of its two bounds, with
    [0 <= lower_bound <= upper_bound <= 1], whatever the margin of error. *)
Theorem proportion_interval_within_unit (p : R) (n : Z) (cl : R) :
  0 <= p <= 1 -> (0 < n)%Z -> 0 < cl < 1 ->
  exists r,
    proportion_confidence_interval stats p n cl = inr r /\
    ProportionCI.confidence_interval r
    = [ProportionCI.lower_bound r; ProportionCI.upper_bound r] /\
    0 <= ProportionCI.lower_bound r /\
    ProportionCI.lower_bound r <= ProportionCI.upper_bound r /\
    ProportionCI.upper_bound r <= 1.
Proof.
  intros Hp Hn Hcl.
  assert (Hn' : 0 < IZR n) by (apply IZR_lt; assumption).
  assert (Hv : 0 <= p * (1 - p) / IZR n).
  { apply Rle_mult_inv_pos; [nra | assumption]. }
  pose proof (sqrt_pos (p * (1 - p) / IZR n)) as Hse.
  pose proof (z_critical_pos cl Hcl) as Hz.
  unfold proportion_confidence_interval.
  rewrite PyFacts.div_ok by lra. cbn [bind Monad_either].
  rewrite PyFacts.math_sqrt_ok by assumption.
  eexists. split; [reflexivity |].
  cbn [ProportionCI.confidence_interval ProportionCI.lower_bound ProportionCI.upper_bound].
  split; [reflexivity |].
  set (me := norm_ppf stats (1 - (1 - cl) / 2) * sqrt (p * (1 - p) / IZR n)).
  assert (Hme : 0 <= me) by (unfold me; nra).
  pose proof (PyFacts.max_0_bounds (p - me)) as [L0 _].
  pose proof (PyFacts.min_1_bounds (p + me)) as [U1 _].
  split; [assumption |]. split; [| assumption].
  apply PyFacts.max_lower.
  - apply PyFacts.min_upper; lra.
  - apply PyFacts.min_upper; lra.
Qed.

End WithStats.

(** The scenario of the specification: p = 0.6, n = 100, confidence 0.95. *)
Lemma proportion_interval_within_unit_witness :
  exists r,
    proportion_confidence_interval Sigmoid.stats 0.6 100 0.95 = inr r /\
    ProportionCI.confidence_interval r
    = [ProportionCI.lower_bound r; ProportionCI.upper_bound r] /\
    0 <= ProportionCI.lower_bound r /\
    ProportionCI.lower_bound r <= ProportionCI.upper_bound r /\
    ProportionCI.upper_bound r <= 1.
Proof.
  apply (proportion_interval_within_unit Sigmoid.stats SigmoidFacts.sigmoid_laws
           0.6 100 0.95).
  - lra.
  - lia.
  - lra.
Defined.

(** In that scenario the result carries no warning: n p = 60 and
    n (1 - p) = 40. *)
Example proportion_interval_scenario_no_warning stats r :
  proportion_confidence_interval stats 0.6 100 0.95 = inr r ->
  ProportionCI.warning r = None.
Proof.
  unfold proportion_confidence_interval.
  rewrite PyFacts.div_ok by lra. cbn [bind Monad_either].
  rewrite PyFacts.math_sqrt_ok by lra. cbn [bind Monad_either ret].
  intros H. injection H as <-. cbn [ProportionCI.warning].
  rewrite (proj2 (PyFacts.lt_false (100 * 0.6) 5)) by lra.
  rewrite (proj2 (PyFacts.lt_false (100 * (1 - 0.6)) 5)) by lra.
  reflexivity.
Qed.

(** A margin larger than the estimate: with p = 1/2 and n = 1 the interval
    is cut at 0 and at 1 as soon as the critical value is at least 1. *)
Example proportion_interval_clamped stats :
  1 <= norm_ppf stats (1 - (1 - 0.95) / 2) ->
  exists r,
    proportion_confidence_interval stats (1 / 2) 1 0.95 = inr r /\
    ProportionCI.lower_bound r = 0 /\ ProportionCI.upper_bound r = 1.
Proof.
  intros Hz. unfold proportion_confidence_interval.
  rewrite PyFacts.div_ok by lra. cbn [bind Monad_either].
  rewrite PyFacts.math_sqrt_ok by lra.
  eexists. split; [reflexivity |].
  cbn [ProportionCI.lower_bound ProportionCI.upper_bound].
  replace (1 / 2 * (1 - 1 / 2) / 1) with ((1 / 2) * (1 / 2)) by field.
  rewrite sqrt_square by lra.
  unfold max, min. split.
  - destruct (lt 0 _) eqn:E; [apply PyFacts.lt_true in E; nra | reflexivity].
  - destruct (lt _ 1) eqn:E; [apply PyFacts.lt_true in E; nra | reflexivity].
Qed.



(** With a prior estimate the estimate is used and the result is not marked
    conservative. *)
Lemma sample_size_for_proportion_with_estimate stats ME cl p r :
  sample_size_for_proportion stats ME cl (Some p) = inr r ->
  ProportionSize.estimated_proportion r = p /\
  ProportionSize.conservative_estimate r = false.
Proof.
  unfold sample_size_for_proportion.
  destruct (math_ceil_float64 _) as [e | [q c]]; cbn; intros H; [discriminate |].
  injection H as <-. split; reflexivity.
Qed.

(** [mean_confidence_interval]: a supplied [population_std] takes
    precedence.  The call with both deviations is the call with
    [population_std] alone; for a positive sample size it returns a z-based
    interval; the [ValueError] about the missing deviation is raised when
    both are absent, and only then. *)
Lemma mean_confidence_interval_population_std_first stats m n cl sigma s :
  mean_confidence_interval stats m n cl (Some sigma) (Some s)
  = mean_confidence_interval stats m n cl (Some sigma) None.
Proof. reflexivity. Qed.

Lemma mean_confidence_interval_z stats m n cl sigma sample_std :
  (0 < n)%Z ->
  exists r,
    mean_confidence_interval stats m n cl (Some sigma) sample_std = inr r /\
    MeanCI.distribution_type r = "z" /\
    MeanCI.degrees_of_freedom r = None /\
    MeanCI.critical_value r = norm_ppf stats (1 - (1 - cl) / 2) /\
    MeanCI.standard_error r = sigma / sqrt (IZR n) /\
    MeanCI.confidence_interval r
    = [m - MeanCI.critical_value r * MeanCI.standard_error r;
       m + MeanCI.critical_value r * MeanCI.standard_error r].
Proof.
  intros Hn. assert (Hn' : 0 < IZR n) by (apply IZR_lt; assumption).
  pose proof (sqrt_lt_R0 _ Hn') as Hs.
  unfold mean_confidence_interval.
  rewrite PyFacts.math_sqrt_ok by lra. cbn [bind Monad_either].
  rewrite PyFacts.div_ok by lra.
  eexists. split; [reflexivity |]. cbn. repeat split.
Qed.

Lemma mean_confidence_interval_t stats m n cl s :
  (0 < n)%Z ->
  exists r,
    mean_confidence_interval stats m n cl None (Some s) = inr r /\
    MeanCI.distribution_type r = "t" /\
    MeanCI.degrees_of_freedom r = Some (n - 1)%Z /\
    MeanCI.critical_value r = t_ppf stats (1 - (1 - cl) / 2) (IZR (n - 1)) /\
    MeanCI.standard_error r = s / sqrt (IZR n).
Proof.
  intros Hn. assert (Hn' : 0 < IZR n) by (apply IZR_lt; assumption).
  pose proof (sqrt_lt_R0 _ Hn') as Hs.
  unfold mean_confidence_interval.
  rewrite PyFacts.math_sqrt_ok by lra. cbn [bind Monad_either].
  rewrite PyFacts.div_ok by lra.
  eexists. split; [reflexivity |]. cbn. repeat split.
Qed.

Lemma mean_confidence_interval_missing_std stats m n cl population_std sample_std :
  mean_confidence_interval stats m n cl population_std sample_std
  = inl (ValueError "Either population_std or sample_std must be provided")
  <-> population_std = None /\ sample_std = None.
Proof.
  split.
  - unfold mean_confidence_interval.
    destruct population_std as [sigma |]; [| destruct sample_std as [s |]].
    + destruct (math_sqrt (IZR n)) as [e | root] eqn:E; cbn.
      * apply PyFacts.math_sqrt_error in E. subst e. discriminate.
      * destruct (div sigma root) as [e | q] eqn:E'; cbn; [| discriminate].
        apply PyFacts.div_error in E'. subst e. discriminate.
    + destruct (math_sqrt (IZR n)) as [e | root] eqn:E; cbn.
      * apply PyFacts.math_sqrt_error in E. subst e. discriminate.
      * destruct (div s root) as [e | q] eqn:E'; cbn; [| discriminate].
        apply PyFacts.div_error in E'. subst e. discriminate.
    + intros _. split; reflexivity.
  - intros [-> ->]. reflexivity.
Qed.

End ConfidenceIntervalsSpec.

(** ** HypothesisTesting *)

Module HypothesisTestingSpec.
Import HypothesisTesting.

(** Case analysis on the outcome of the partial operation that [H] is
    waiting for: the innermost scrutinee at the head of its left-hand side. *)
Ltac head_scrutinee c :=
  lazymatch c with
  | match ?c' with inl _ => _ | inr _ => _ end => head_scrutinee c'
  | _ => c
  end.

Ltac exc_step H :=
  cbn [bind Monad_either ret] in H;
  lazymatch type of H with
  | match ?c with inl _ => _ | inr _ => _ end = _ =>
      let c' := head_scrutinee c in
      let E := fresh "E" in
      destruct c' eqn:E;
      [ first [ apply PyFacts.div_error in E
              | apply PyFacts.math_sqrt_error in E ]
      | first [ apply PyFacts.div_inv in E as [? ?]
              | apply PyFacts.math_sqrt_inv in E as [? ?] ] ]
  end;
  cbn [bind Monad_either ret] in H.

(** The same, naming the value and the two facts of the successful case. *)
Tactic Notation "exc_step_named" hyp(H) "as" ident(v) ident(A) ident(B) :=
  cbn [bind Monad_either ret] in H;
  lazymatch type of H with
  | match ?c with inl _ => _ | inr _ => _ end = _ =>
      let c' := head_scrutinee c in
      let E := fresh "E" in
      destruct c' as [? | v] eqn:E;
      [ first [ apply PyFacts.div_error in E
              | apply PyFacts.math_sqrt_error in E ]
      | first [ apply PyFacts.div_inv in E as [A B]
              | apply PyFacts.math_sqrt_inv in E as [A B] ] ]
  end;
  cbn [bind Monad_either ret] in H.

Lemma IZR_neq_0 z : IZR z <> 0 -> (z <> 0)%Z.
Proof. intros H E. apply H. rewrite E. reflexivity. Qed.

Lemma sqrt_neq_0_pos x : 0 <= x -> sqrt x <> 0 -> 0 < x.
Proof.
  intros Hx Hs. destruct (Req_dec x 0) as [-> | N]; [| lra].
  contradiction Hs. apply sqrt_0.
Qed.

Section WithStats.
Variable stats : ScipyStats.

(** *** The shared fragments *)

Lemma norm_region_two_tailed alpha stat :
  norm_region stats "two-tailed" alpha stat
  = ([- norm_ppf stats (1 - alpha / 2); norm_ppf stats (1 - alpha / 2)],
     2 * (1 - norm_cdf stats (Rabs stat))).
Proof. reflexivity. Qed.

Lemma t_region_two_tailed alpha stat df :
  t_region stats "two-tailed" alpha stat df
  = ([- t_ppf stats (1 - alpha / 2) df; t_ppf stats (1 - alpha / 2) df],
     2 * (1 - t_cdf stats (Rabs stat) df)).
Proof. reflexivity. Qed.

Lemma decision_two_tailed stat lo hi :
  decision "two-tailed" stat [lo; hi] = inr (gt (Rabs stat) (Rabs hi)).
Proof. reflexivity. Qed.

(** The decision never fails on the critical values of its own tail type:
    index 1 is read for two values, index 0 for one. *)
Lemma decision_norm_region test_type alpha stat :
  exists b,
    decision test_type stat (fst (norm_region stats test_type alpha stat)) = inr b.
Proof.
  unfold decision, norm_region.
  destruct (test_type =? "two-tailed"); [| destruct (test_type =? "left-tailed")];
    eexists; reflexivity.
Qed.

Lemma decision_t_region test_type alpha stat df :
  exists b,
    decision test_type stat (fst (t_region stats test_type alpha stat df)) = inr b.
Proof.
  unfold decision, t_region.
  destruct (test_type =? "two-tailed"); [| destruct (test_type =? "left-tailed")];
    eexists; reflexivity.
Qed.

(** *** [one_sample_mean_test] *)

(** With a population standard deviation: a z-test with standard error
    [population_std / sqrt n], whatever [sample_std] is. *)
Lemma one_sample_mean_test_locals_z m n mu0 alpha test_type sigma sample_std :
  (0 < n)%Z -> sigma <> 0 ->
  exists l,
    one_sample_mean_test_locals stats m n mu0 alpha test_type (Some sigma) sample_std
    = inr l /\
    MeanLocals.distribution_type l = "z" /\
    MeanLocals.df l = None /\
    MeanLocals.std_error l = sigma / sqrt (IZR n) /\
    MeanLocals.test_stat l = (m - mu0) / MeanLocals.std_error l /\
    (MeanLocals.critical_values l, MeanLocals.p_value l)
    = norm_region stats test_type alpha (MeanLocals.test_stat l).
Proof.
  intros Hn Hs. assert (Hn' : 0 < IZR n) by (apply IZR_lt; assumption).
  pose proof (sqrt_lt_R0 _ Hn') as Hr.
  assert (Hse : sigma / sqrt (IZR n) <> 0).
  { unfold Rdiv. apply Rmult_integral_contrapositive_currified; [assumption |].
    apply Rinv_neq_0_compat. lra. }
  unfold one_sample_mean_test_locals.
  rewrite PyFacts.math_sqrt_ok by lra. cbn [bind Monad_either].
  rewrite PyFacts.div_ok by lra. cbn [bind Monad_either].
  rewrite PyFacts.div_ok by assumption. cbn [bind Monad_either ret].
  destruct (decision_norm_region test_type alpha ((m - mu0) / (sigma / sqrt (IZR n))))
    as [b Hb].
  destruct (norm_region stats test_type alpha _) as [cv p] eqn:ER.
  cbn [fst] in Hb. rewrite Hb. cbn [bind Monad_either ret].
  eexists. split; [reflexivity |]. cbn. repeat split. symmetry. exact ER.
Qed.


(** With neither deviation the method raises its [ValueError], before
    anything is computed. *)
Lemma one_sample_mean_test_locals_neither m n mu0 alpha test_type :
  one_sample_mean_test_locals stats m n mu0 alpha test_type None None
  = inl (ValueError "Either population_std or sample_std must be provided").
Proof. reflexivity. Qed.

(** The [return] of lines 134-152 reads [null_proportion], a name that is
    neither a local of [one_sample_mean_test] nor a global of the module. *)
Lemma one_sample_mean_test_return_raises :
  load_all one_sample_mean_test_scope one_sample_mean_test_reads
  = inl (NameError "null_proportion").
Proof. reflexivity. Qed.

Lemma one_sample_mean_test_outcome m n mu0 alpha test_type population_std sample_std :
  one_sample_mean_test stats m n mu0 alpha test_type population_std sample_std
  = match one_sample_mean_test_locals stats m n mu0 alpha test_type
            population_std sample_std with
    | inl e => inl e
    | inr _ => inl (NameError "null_proportion")
    end.
Proof.
  unfold one_sample_mean_test.
  destruct (one_sample_mean_test_locals _ _ _ _ _ _ _ _); reflexivity.
Qed.

(** No call of [one_sample_mean_test] returns a result. *)
Lemma one_sample_mean_test_never_returns m n mu0 alpha test_type population_std
    sample_std r :
  one_sample_mean_test stats m n mu0 alpha test_type population_std sample_std
  <> inr r.
Proof.
  rewrite one_sample_mean_test_outcome.
  destruct (one_sample_mean_test_locals _ _ _ _ _ _ _ _); discriminate.
Qed.

Lemma sqrt_36 : sqrt 36 = 6.
Proof.
  replace 36 with (6 * 6) by lra. apply sqrt_square. lra.
Qed.

(** C1, at the scenario of the specification (sample mean 105, n = 36,
    null mean 100, population standard deviation 15, alpha 0.05, two-tailed).
    The method computes the z-test the claim describes, standard error
    15/sqrt(36) = 2.5 and statistic (105 - 100)/2.5 = 2, and then raises
    [NameError] while it builds the result: no result is returned. *)
Theorem one_sample_mean_test_scenario_raises_name_error :
  (exists l,
      one_sample_mean_test_locals stats 105 36 100 0.05 "two-tailed"
        (Some 15) None = inr l /\
      MeanLocals.distribution_type l = "z" /\
      MeanLocals.std_error l = 2.5 /\
      MeanLocals.test_stat l = 2) /\
  one_sample_mean_test stats 105 36 100 0.05 "two-tailed" (Some 15) None
  = inl (NameError "null_proportion").
Proof.
  destruct (one_sample_mean_test_locals_z 105 36 100 0.05 "two-tailed" 15 None)
    as (l & Hl & Hd & _ & Hse & Hts & _); [lia | lra |].
  rewrite sqrt_36 in Hse.
  assert (Hse' : MeanLocals.std_error l = 2.5) by (rewrite Hse; lra).
  split.
  - exists l. repeat split; try assumption.
    rewrite Hts, Hse'. lra.
  - rewrite one_sample_mean_test_outcome, Hl. reflexivity.
Qed.

(** C10, at a call that supplies both deviations (population 15, sample
    14).  [mean_confidence_interval] returns the z-based interval, with
    standard error 15/sqrt(36) = 2.5.  [one_sample_mean_test] takes the
    z-branch as well, and then raises [NameError] while it builds the
    result: this call fails. *)
Theorem both_deviations_supplied_mean_test_raises :
  (exists r,
      ConfidenceIntervals.mean_confidence_interval stats 105 36 0.95
        (Some 15) (Some 14) = inr r /\
      ConfidenceIntervals.MeanCI.distribution_type r = "z" /\
      ConfidenceIntervals.MeanCI.standard_error r = 2.5) /\
  (exists l,
      one_sample_mean_test_locals stats 105 36 100 0.05 "two-tailed"
        (Some 15) (Some 14) = inr l /\
      MeanLocals.distribution_type l = "z" /\
      MeanLocals.std_error l = 2.5) /\
  one_sample_mean_test stats 105 36 100 0.05 "two-tailed" (Some 15) (Some 14)
  = inl (NameError "null_proportion").
Proof.
  destruct (one_sample_mean_test_locals_z 105 36 100 0.05 "two-tailed" 15 (Some 14))
    as (l & Hl & Hd & _ & Hse & _); [lia | lra |].
  rewrite sqrt_36 in Hse.
  destruct (ConfidenceIntervalsSpec.mean_confidence_interval_z stats 105 36
              0.95 15 (Some 14)) as (r & Hr & Hz & _ & _ & Hrse & _); [lia |].
  rewrite sqrt_36 in Hrse.
  split; [| split].
  - exists r. repeat split; try assumption. rewrite Hrse. lra.
  - exists l. repeat split; try assumption. rewrite Hse. lra.
  - rewrite one_sample_mean_test_outcome, Hl. reflexivity.
Qed.

(** *** [two_sample_mean_test] *)


(** Every name the [return] of lines 262-280 reads is bound, on the pooled
    path and on Welch's path. *)
Lemma two_sample_mean_test_return_loads equal_variances :
  load_all (two_sample_mean_test_scope equal_variances)
           (two_sample_mean_test_reads equal_variances) = inr tt.
Proof. destruct equal_variances; reflexivity. Qed.

(** Had the literal read [pooled_var] without the guard, Welch's path would
    raise: the name is a local that this path leaves unbound. *)
Lemma pooled_var_unbound_on_welch_path :
  load (two_sample_mean_test_scope false) "pooled_var"
  = inl (UnboundLocalError "pooled_var").
Proof. reflexivity. Qed.


(** The pooled path binds [pooled_var] and returns it: the weighted average
    of the two sample variances, with [n1 + n2 - 2] degrees of freedom. *)
Lemma pooled_returns m1 n1 s1 m2 n2 s2 alpha test_type :
  (2 <= n1)%Z -> (2 <= n2)%Z -> s1 <> 0 \/ s2 <> 0 ->
  exists r,
    two_sample_mean_test stats m1 n1 s1 m2 n2 s2 alpha test_type true = inr r /\
    TwoSampleMean.pooled_variance r
    = Some ((IZR (n1 - 1) * s1 ^ 2 + IZR (n2 - 1) * s2 ^ 2) / IZR (n1 + n2 - 2)) /\
    TwoSampleMean.degrees_of_freedom r = IZR (n1 + n2 - 2).
Proof.
  intros H1 H2 Hs.
  assert (P1 : 2 <= IZR n1) by (apply IZR_le; assumption).
  assert (P2 : 2 <= IZR n2) by (apply IZR_le; assumption).
  assert (Q1 : 1 <= IZR (n1 - 1)) by (apply IZR_le; lia).
  assert (Q2 : 1 <= IZR (n2 - 1)) by (apply IZR_le; lia).
  assert (Q : 2 <= IZR (n1 + n2 - 2)) by (apply IZR_le; lia).
  set (pv := (IZR (n1 - 1) * s1 ^ 2 + IZR (n2 - 1) * s2 ^ 2) / IZR (n1 + n2 - 2)).
  assert (V : 0 < pv).
  { unfold pv. apply Rdiv_lt_0_compat; [| lra]. destruct Hs; nra. }
  assert (I1 : 0 < 1 / IZR n1) by (apply Rdiv_lt_0_compat; lra).
  assert (I2 : 0 < 1 / IZR n2) by (apply Rdiv_lt_0_compat; lra).
  pose proof (sqrt_lt_R0 _ V) as Hp.
  assert (Hr : 0 < sqrt (1 / IZR n1 + 1 / IZR n2)) by (apply sqrt_lt_R0; lra).
  unfold two_sample_mean_test.
  rewrite (PyFacts.div_ok _ (IZR (n1 + n2 - 2))) by lra. cbn [bind Monad_either].
  fold pv.
  rewrite PyFacts.math_sqrt_ok by lra. cbn [bind Monad_either].
  rewrite (PyFacts.div_ok 1 (IZR n1)) by lra. cbn [bind Monad_either].
  rewrite (PyFacts.div_ok 1 (IZR n2)) by lra. cbn [bind Monad_either].
  rewrite PyFacts.math_sqrt_ok by lra. cbn [bind Monad_either ret].
  rewrite PyFacts.div_ok by nra. cbn [bind Monad_either ret].
  match goal with |- context [t_region stats test_type alpha ?t ?d] =>
    destruct (decision_t_region test_type alpha t d) as [b Hb];
    destruct (t_region stats test_type alpha t d) as [cv p]
  end.
  cbn [fst] in Hb. rewrite Hb. cbn [bind Monad_either ret].
  rewrite two_sample_mean_test_return_loads. cbn [bind Monad_either ret].
  eexists. split; [reflexivity |]. cbn. split; reflexivity.
Qed.



(** *** [one_sample_proportion_test] *)

Lemma warning_iff (a b : R) :
  (if lt a 5 || lt b 5 then Some (a, b) else None) <> None <-> a < 5 \/ b < 5.
Proof.
  destruct (lt a 5) eqn:A; [| destruct (lt b 5) eqn:B]; cbn [orb].
  - apply PyFacts.lt_true in A. split; [intros _; left; assumption | discriminate].
  - apply PyFacts.lt_true in B. split; [intros _; right; assumption | discriminate].
  - apply PyFacts.lt_false in A, B.
    split; [intros C; contradiction C; reflexivity | intros [C | C]; lra].
Qed.


Lemma one_sample_proportion_test_inv p_hat n p0 alpha test_type r :
  one_sample_proportion_test stats p_hat n p0 alpha test_type = inr r ->
  ProportionTest.standard_error r = sqrt (p0 * (1 - p0) / IZR n) /\
  ProportionTest.test_statistic r
  = (p_hat - p0) / ProportionTest.standard_error r /\
  (ProportionTest.warning r <> None
   <-> IZR n * p0 < 5 \/ IZR n * (1 - p0) < 5).
Proof.
  intros H. unfold one_sample_proportion_test in H.
  do 3 (exc_step H; [discriminate H |]).
  destruct (norm_region stats test_type alpha _) as [cv p].
  destruct (decision test_type _ cv) as [e | b]; cbn [bind Monad_either ret] in H;
    [discriminate H |].
  injection H as <-. subst.
  cbn [ProportionTest.standard_error ProportionTest.test_statistic ProportionTest.warning].
  split; [reflexivity |]. split; [reflexivity |].
  unfold one_sample_proportion_test_warning_entry. apply warning_iff.
Qed.


(** *** [two_sample_proportion_test] *)

Lemma two_sample_proportion_test_returns x1 n1 x2 n2 alpha test_type :
  (0 < n1)%Z -> (0 < n2)%Z -> (0 < x1 + x2 < n1 + n2)%Z ->
  exists r,
    two_sample_proportion_test stats x1 n1 x2 n2 alpha test_type = inr r /\
    TwoSampleProportion.pooled_proportion r = IZR (x1 + x2) / IZR (n1 + n2) /\
    TwoSampleProportion.test_statistic r
    = (IZR x1 / IZR n1 - IZR x2 / IZR n2) / TwoSampleProportion.standard_error r.
Proof.
  intros H1 H2 [Hx Hx'].
  assert (P1 : 0 < IZR n1) by (apply IZR_lt; assumption).
  assert (P2 : 0 < IZR n2) by (apply IZR_lt; assumption).
  assert (PX : 0 < IZR (x1 + x2)) by (apply IZR_lt; assumption).
  assert (PN : IZR (x1 + x2) < IZR (n1 + n2)) by (apply IZR_lt; assumption).
  set (pp := IZR (x1 + x2) / IZR (n1 + n2)).
  assert (Hpp : 0 < pp) by (apply Rdiv_lt_0_compat; lra).
  assert (Hqq : 0 < 1 - pp).
  { unfold pp. replace (1 - IZR (x1 + x2) / IZR (n1 + n2))
      with ((IZR (n1 + n2) - IZR (x1 + x2)) / IZR (n1 + n2)) by (field; lra).
    apply Rdiv_lt_0_compat; lra. }
  assert (I1 : 0 < 1 / IZR n1) by (apply Rdiv_lt_0_compat; lra).
  assert (I2 : 0 < 1 / IZR n2) by (apply Rdiv_lt_0_compat; lra).
  assert (V : 0 < pp * (1 - pp) * (1 / IZR n1 + 1 / IZR n2)).
  { apply Rmult_lt_0_compat; [apply Rmult_lt_0_compat; assumption | lra]. }
  pose proof (sqrt_lt_R0 _ V) as Hse.
  unfold two_sample_proportion_test.
  rewrite (PyFacts.div_ok (IZR x1)) by lra. cbn [bind Monad_either].
  rewrite (PyFacts.div_ok (IZR x2)) by lra. cbn [bind Monad_either].
  rewrite (PyFacts.div_ok (IZR (x1 + x2))) by lra. cbn [bind Monad_either].
  fold pp.
  rewrite (PyFacts.div_ok 1 (IZR n1)) by lra. cbn [bind Monad_either].
  rewrite (PyFacts.div_ok 1 (IZR n2)) by lra. cbn [bind Monad_either].
  rewrite PyFacts.math_sqrt_ok by lra. cbn [bind Monad_either].
  rewrite PyFacts.div_ok by lra. cbn [bind Monad_either].
  match goal with |- context [norm_region stats test_type alpha ?z] =>
    destruct (decision_norm_region test_type alpha z) as [b Hb];
    destruct (norm_region stats test_type alpha z) as [cv p]
  end.
  cbn [fst] in Hb. rewrite Hb. eexists. split; [reflexivity |]. cbn. split; reflexivity.
Qed.

(** *** Two-tailed tests: the two decision paths under the exact laws *)

Hypothesis laws : ScipyLaws stats.


End WithStats.

Section TwoTailed.
Variable stats : ScipyStats.



End TwoTailed.







(** A small sample: n = 8 and p0 = 0.5 give n p0 = 4 < 5, and the result
    carries a warning. *)
Example one_sample_proportion_test_small_sample_warns stats r :
  one_sample_proportion_test stats 0.6 8 0.5 0.05 "two-tailed" = inr r ->
  ProportionTest.warning r <> None.
Proof.
  intros H.
  apply one_sample_proportion_test_inv in H as (_ & _ & W).
  apply W. left. lra.
Qed.

End HypothesisTestingSpec.

(** * Further properties *)

(** ** NormalDistribution: the other queries *)

Module NormalQueriesSpec.
Import NormalDistribution.



(** X1. [calculate_z_score] divides by [std_dev] unchecked: with a non-zero
    [std_dev], of either sign, it returns the quotient
    [(x - mean) / std_dev]; from the mean upward that z-score is not negative
    for a positive [std_dev] and not positive for a negative one; with
    [std_dev = 0], which the constructor admits, it raises
    [ZeroDivisionError]. *)
Theorem z_score_divides_by_std_dev (self : t) (x : R) :
  (std_dev self <> 0 ->
   exists r, calculate_z_score self x = inr r /\
             ZScore.z_score r = (x - mean self) / std_dev self /\
             (0 < std_dev self -> mean self <= x -> 0 <= ZScore.z_score r) /\
             (std_dev self < 0 -> mean self <= x -> ZScore.z_score r <= 0)) /\
  (std_dev self = 0 -> calculate_z_score self x = inl ZeroDivisionError).
Proof.
  split; intros H; unfold calculate_z_score.
  - rewrite PyFacts.div_ok by assumption.
    eexists. split; [reflexivity |]. cbn [ZScore.z_score].
    split; [reflexivity |]. split; intros Hs Hx.
    + apply Rle_mult_inv_pos; lra.
    + replace ((x - mean self) / std_dev self)
        with (- ((x - mean self) / - std_dev self)) by (field; assumption).
      assert (0 <= (x - mean self) / - std_dev self)
        by (apply Rle_mult_inv_pos; lra).
      lra.
  - rewrite H, PyFacts.div_zero. reflexivity.
Qed.

Lemma z_score_divides_by_std_dev_witness :
  (exists r, calculate_z_score {| mean := 100; std_dev := 15 |} 130 = inr r /\
             ZScore.z_score r = (130 - 100) / 15 /\
             0 <= ZScore.z_score r) /\
  calculate_z_score {| mean := 100; std_dev := 0 |} 130 = inl ZeroDivisionError.
Proof.
  split.
  - destruct (z_score_divides_by_std_dev {| mean := 100; std_dev := 15 |} 130)
      as [A _].
    destruct A as (r & Hr & E & P & _); [cbn; lra |].
    exists r. split; [exact Hr |]. split; [exact E |].
    apply P; cbn; lra.
  - apply (z_score_divides_by_std_dev {| mean := 100; std_dev := 0 |} 130).
    reflexivity.
Defined.



Section WithStats.
Variable stats : ScipyStats.

Lemma calculate_probability_returns (self : t) (x : R) (comparison : string) :
  std_dev self <> 0 ->
  calculate_probability stats self x comparison
  = inr (let z := (x - mean self) / std_dev self in
         let pr := if comparison =? "less_than" then norm_cdf stats z
                   else if comparison =? "greater_than" then 1 - norm_cdf stats z
                   else norm_cdf stats z in
         {| probability := pr; z_score := z; percentage := pr * 100 |}).
Proof.
  intros H. unfold calculate_probability. rewrite PyFacts.div_ok by assumption.
  reflexivity.
Qed.

(** X3. The two tails are complementary: for the same [x], the
    probabilities of ['less_than'] and ['greater_than'] add up to 1 (and the
    two calls report the same z-score). *)
Theorem less_than_and_greater_than_are_complementary (self : t) (x : R) :
  std_dev self <> 0 ->
  exists r1 r2,
    calculate_probability stats self x "less_than" = inr r1 /\
    calculate_probability stats self x "greater_than" = inr r2 /\
    probability r1 + probability r2 = 1 /\
    z_score r1 = z_score r2.
Proof.
  intros H. do 2 eexists.
  rewrite !calculate_probability_returns by assumption.
  split; [reflexivity |]. split; [reflexivity |]. cbn. split; [lra | reflexivity].
Qed.

Lemma calculate_probability_between_ordered (self : t) (x1 x2 : R) :
  x1 <= x2 -> std_dev self <> 0 ->
  calculate_probability_between stats self x1 x2
  = inr (let z1 := (x1 - mean self) / std_dev self in
         let z2 := (x2 - mean self) / std_dev self in
         {| Between.probability := norm_cdf stats z2 - norm_cdf stats z1;
            Between.z_scores := [z1; z2];
            Between.percentage := (norm_cdf stats z2 - norm_cdf stats z1) * 100 |}).
Proof.
  intros Hx Hs. unfold calculate_probability_between.
  unfold gt. rewrite (proj2 (PyFacts.lt_false x2 x1)) by assumption.
  rewrite !PyFacts.div_ok by assumption. reflexivity.
Qed.

Lemma calculate_probability_between_swap (self : t) (x1 x2 : R) :
  calculate_probability_between stats self x1 x2
  = calculate_probability_between stats self x2 x1.
Proof.
  unfold calculate_probability_between, gt.
  destruct (lt x2 x1) eqn:A; destruct (lt x1 x2) eqn:B;
    rewrite ?PyFacts.lt_true, ?PyFacts.lt_false in A, B; try reflexivity.
  - exfalso. lra.
  - assert (x1 = x2) by lra. subst x2. reflexivity.
Qed.

(** X4. [calculate_probability_between] does not depend on the order of its
    two bounds, and for [x1 <= x2] its probability is the ['less_than']
    probability of [x2] minus that of [x1]. *)
Theorem probability_between_is_symmetric_difference (self : t) (x1 x2 : R) :
  calculate_probability_between stats self x1 x2
  = calculate_probability_between stats self x2 x1 /\
  (x1 <= x2 -> std_dev self <> 0 ->
   exists r r1 r2,
     calculate_probability_between stats self x1 x2 = inr r /\
     calculate_probability stats self x1 "less_than" = inr r1 /\
     calculate_probability stats self x2 "less_than" = inr r2 /\
     Between.probability r = probability r2 - probability r1).
Proof.
  split.
  - apply calculate_probability_between_swap.
  - intros Hx Hs. do 3 eexists.
    rewrite calculate_probability_between_ordered by assumption.
    rewrite !calculate_probability_returns by assumption.
    split; [reflexivity |]. split; [reflexivity |]. split; reflexivity.
Qed.

Hypothesis laws : ScipyLaws stats.

Lemma norm_cdf_lt_inv x y : norm_cdf stats x < norm_cdf stats y -> x < y.
Proof.
  apply (cdf_lt_inv (norm_cdf stats)). apply (norm_cdf_incr _ laws).
Qed.

Lemma norm_cdf_injective x y : norm_cdf stats x = norm_cdf stats y -> x = y.
Proof.
  intros H. destruct (Rtotal_order x y) as [L | [E | G]]; [| assumption |].
  - apply (norm_cdf_incr _ laws) in L. lra.
  - apply (norm_cdf_incr _ laws) in G. lra.
Qed.

(** X5. With [std_dev > 0] the probability between two values is never
    negative; an instance with [std_dev < 0], which the constructor accepts,
    reports a probability that is never positive. *)
Theorem probability_between_sign (self : t) (x1 x2 : R) (r : Between.result) :
  calculate_probability_between stats self x1 x2 = inr r ->
  (0 < std_dev self -> 0 <= Between.probability r) /\
  (std_dev self < 0 -> Between.probability r <= 0).
Proof.
  intros H.
  assert (G : forall a b, a <= b ->
    calculate_probability_between stats self a b = inr r ->
    (0 < std_dev self -> 0 <= Between.probability r) /\
    (std_dev self < 0 -> Between.probability r <= 0)).
  { intros a b Hab Hr.
    assert (Hs : std_dev self <> 0).
    { intros Z0. unfold calculate_probability_between in Hr.
      destruct (gt a b); rewrite Z0, PyFacts.div_zero in Hr; discriminate Hr. }
    rewrite calculate_probability_between_ordered in Hr by assumption.
    injection Hr as <-. cbn [Between.probability].
    set (z1 := (a - mean self) / std_dev self).
    set (z2 := (b - mean self) / std_dev self).
    split; intros Hsd.
    - assert (D : z2 - z1 = (b - a) * / std_dev self) by (unfold z1, z2; field; lra).
      pose proof (Rinv_0_lt_compat _ Hsd) as Hi.
      assert (z1 <= z2) by nra.
      destruct (Req_dec z1 z2) as [-> | N]; [lra |].
      assert (L : z1 < z2) by lra. apply (norm_cdf_incr _ laws) in L. lra.
    - assert (D : z2 - z1 = (b - a) * / std_dev self) by (unfold z1, z2; field; lra).
      pose proof (Rinv_lt_0_compat _ Hsd) as Hi.
      assert (z2 <= z1) by nra.
      destruct (Req_dec z1 z2) as [-> | N]; [lra |].
      assert (L : z2 < z1) by lra. apply (norm_cdf_incr _ laws) in L. lra. }
  destruct (Rle_dec x1 x2) as [L | N].
  - apply (G x1 x2 L H).
  - apply (G x2 x1); [lra |]. rewrite <- calculate_probability_between_swap. exact H.
Qed.

(** X7. The 50th percentile is the mean, whatever [std_dev] is. *)
Theorem median_percentile_is_mean (self : t) :
  Percentile.x_value (find_percentile stats self 50) = mean self /\
  Percentile.z_score (find_percentile stats self 50) = 0.
Proof.
  cbn [find_percentile Percentile.x_value Percentile.z_score].
  assert (Z : norm_ppf stats (50 / 100) = 0).
  { apply norm_cdf_injective.
    rewrite (norm_cdf_ppf _ laws) by lra. rewrite (norm_cdf_0 _ laws). lra. }
  rewrite Z. split; [ring | reflexivity].
Qed.

(** X8. For a confidence level in (0,1) and [std_dev > 0] the two critical
    values lie on either side of the mean: the lower z-value is not positive
    and the upper one not negative, and the lower x-value is at most the
    mean and the upper one at least the mean. *)
Theorem critical_values_lie_on_either_side_of_the_mean (self : t) (cl : R) :
  0 < cl < 1 -> 0 < std_dev self ->
  let c := find_critical_values stats self cl in
  Critical.z_critical_lower c <= 0 <= Critical.z_critical_upper c /\
  Critical.x_critical_lower c <= mean self <= Critical.x_critical_upper c.
Proof.
  intros Hcl Hs c.
  set (zl := norm_ppf stats ((1 - cl) / 2)).
  set (zu := norm_ppf stats (1 - (1 - cl) / 2)).
  assert (El : norm_cdf stats zl = (1 - cl) / 2)
    by (apply (norm_cdf_ppf _ laws); lra).
  assert (Eu : norm_cdf stats zu = 1 - (1 - cl) / 2)
    by (apply (norm_cdf_ppf _ laws); lra).
  assert (Hl : zl < 0).
  { apply norm_cdf_lt_inv. rewrite El, (norm_cdf_0 _ laws). lra. }
  assert (Hu : 0 < zu).
  { apply norm_cdf_lt_inv. rewrite Eu, (norm_cdf_0 _ laws). lra. }
  subst c.
  cbn [find_critical_values Critical.z_critical_lower Critical.z_critical_upper
       Critical.x_critical_lower Critical.x_critical_upper].
  fold zl zu.
  split; [lra | nra].
Qed.

End WithStats.

Lemma less_than_and_greater_than_are_complementary_witness :
  exists r1 r2,
    calculate_probability Sigmoid.stats {| mean := 100; std_dev := 15 |} 110
      "less_than" = inr r1 /\
    calculate_probability Sigmoid.stats {| mean := 100; std_dev := 15 |} 110
      "greater_than" = inr r2 /\
    probability r1 + probability r2 = 1 /\
    z_score r1 = z_score r2.
Proof.
  apply (less_than_and_greater_than_are_complementary Sigmoid.stats
           {| mean := 100; std_dev := 15 |} 110).
  cbn. lra.
Defined.

Lemma probability_between_is_symmetric_difference_witness :
  exists r r1 r2,
    calculate_probability_between Sigmoid.stats {| mean := 100; std_dev := 15 |}
      85 115 = inr r /\
    calculate_probability Sigmoid.stats {| mean := 100; std_dev := 15 |} 85
      "less_than" = inr r1 /\
    calculate_probability Sigmoid.stats {| mean := 100; std_dev := 15 |} 115
      "less_than" = inr r2 /\
    Between.probability r = probability r2 - probability r1.
Proof.
  apply (probability_between_is_symmetric_difference Sigmoid.stats
           {| mean := 100; std_dev := 15 |} 85 115).
  - lra.
  - cbn. lra.
Defined.

Lemma probability_between_sign_witness :
  exists r,
    calculate_probability_between Sigmoid.stats {| mean := 100; std_dev := 15 |}
      115 85 = inr r /\
    0 <= Between.probability r.
Proof.
  assert (E : exists r,
    calculate_probability_between Sigmoid.stats {| mean := 100; std_dev := 15 |}
      115 85 = inr r).
  { rewrite calculate_probability_between_swap.
    rewrite calculate_probability_between_ordered; [eexists; reflexivity | lra | cbn; lra]. }
  destruct E as [r Hr]. exists r. split; [exact Hr |].
  apply (probability_between_sign Sigmoid.stats SigmoidFacts.sigmoid_laws
           {| mean := 100; std_dev := 15 |} 115 85 r Hr).
  cbn. lra.
Defined.

Lemma median_percentile_is_mean_witness :
  Percentile.x_value
    (find_percentile Sigmoid.stats {| mean := 100; std_dev := 15 |} 50) = 100 /\
  Percentile.z_score
    (find_percentile Sigmoid.stats {| mean := 100; std_dev := 15 |} 50) = 0.
Proof.
  apply (median_percentile_is_mean Sigmoid.stats SigmoidFacts.sigmoid_laws
           {| mean := 100; std_dev := 15 |}).
Defined.

Lemma critical_values_lie_on_either_side_of_the_mean_witness :
  let c := find_critical_values Sigmoid.stats {| mean := 100; std_dev := 15 |} 0.95 in
  Critical.z_critical_lower c <= 0 <= Critical.z_critical_upper c /\
  Critical.x_critical_lower c <= 100 <= Critical.x_critical_upper c.
Proof.
  apply (critical_values_lie_on_either_side_of_the_mean Sigmoid.stats
           SigmoidFacts.sigmoid_laws {| mean := 100; std_dev := 15 |} 0.95).
  - lra.
  - cbn. lra.
Defined.



End NormalQueriesSpec.

(** ** ConfidenceIntervals: further properties *)

Module ConfidenceIntervalsMoreSpec.
Import ConfidenceIntervals.

Section WithStats.
Variable stats : ScipyStats.


Hypothesis laws : ScipyLaws stats.




End WithStats.



Section SampleSizes.
Variable stats : ScipyStats.





Hypothesis laws : ScipyLaws stats.

End SampleSizes.



End ConfidenceIntervalsMoreSpec.

(** ** HypothesisTesting: further properties *)

Module HypothesisTestingMoreSpec.
Import HypothesisTesting HypothesisTestingSpec.

(** One-tailed decisions against a strictly increasing CDF with inverse
    [ppf]. *)
Section OneTailed.
Variables cdf ppf : R -> R.
Hypothesis cdf_incr : forall x y, x < y -> cdf x < cdf y.
Hypothesis cdf_ppf : forall q, 0 < q < 1 -> cdf (ppf q) = q.



End OneTailed.

Section WithStats.
Variable stats : ScipyStats.
Hypothesis laws : ScipyLaws stats.


End WithStats.

Section Shapes.
Variable stats : ScipyStats.


Lemma two_sample_proportion_test_shape x1 n1 x2 n2 alpha test_type r :
  two_sample_proportion_test stats x1 n1 x2 n2 alpha test_type = inr r ->
  let pp := IZR (x1 + x2) / IZR (n1 + n2) in
  IZR n1 <> 0 /\ IZR n2 <> 0 /\ IZR (n1 + n2) <> 0 /\
  0 <= pp * (1 - pp) * (1 / IZR n1 + 1 / IZR n2) /\
  TwoSampleProportion.pooled_proportion r = pp /\
  TwoSampleProportion.standard_error r
  = sqrt (pp * (1 - pp) * (1 / IZR n1 + 1 / IZR n2)) /\
  TwoSampleProportion.standard_error r <> 0 /\
  TwoSampleProportion.test_statistic r
  = (IZR x1 / IZR n1 - IZR x2 / IZR n2) / TwoSampleProportion.standard_error r /\
  TwoSampleProportion.warning r
  = (if negb (ge (IZR n1 * pp) 5 && ge (IZR n1 * (1 - pp)) 5
              && ge (IZR n2 * pp) 5 && ge (IZR n2 * (1 - pp)) 5)
     then Some "Warning: Normal approximation conditions not met. All of n₁p̂, n₁q̂, n₂p̂, n₂q̂ should be ≥ 5."
     else None) /\
  norm_region stats test_type alpha (TwoSampleProportion.test_statistic r)
  = (TwoSampleProportion.critical_values r, TwoSampleProportion.p_value r) /\
  decision test_type (TwoSampleProportion.test_statistic r)
    (TwoSampleProportion.critical_values r)
  = inr (TwoSampleProportion.reject_null r).
Proof.
  intros H pp. unfold two_sample_proportion_test in H.
  exc_step_named H as p1 Hn1 Ep1; [discriminate H |].
  exc_step_named H as p2 Hn2 Ep2; [discriminate H |].
  exc_step_named H as pq Hn Epp; [discriminate H |].
  exc_step_named H as i1 Hi1 Ei1; [discriminate H |].
  exc_step_named H as i2 Hi2 Ei2; [discriminate H |].
  exc_step_named H as se Hv Ese; [discriminate H |].
  exc_step_named H as z Hse Ez; [discriminate H |].
  destruct (norm_region stats test_type alpha z) as [cv p] eqn:ER.
  destruct (decision test_type z cv) as [e | b] eqn:ED;
    cbn [bind Monad_either ret] in H; [discriminate H |].
  injection H as <-. subst. fold pp in Hv, Hse, ER, ED |- *.
  cbn [TwoSampleProportion.pooled_proportion TwoSampleProportion.standard_error
       TwoSampleProportion.test_statistic TwoSampleProportion.warning
       TwoSampleProportion.critical_values TwoSampleProportion.p_value
       TwoSampleProportion.reject_null].
  repeat split; try assumption.
  cbn [forallb]. rewrite andb_true_r, !andb_assoc. reflexivity.
Qed.

Lemma two_sample_proportion_test_build x1 n1 x2 n2 alpha test_type :
  let pp := IZR (x1 + x2) / IZR (n1 + n2) in
  IZR n1 <> 0 -> IZR n2 <> 0 -> IZR (n1 + n2) <> 0 ->
  0 < pp * (1 - pp) * (1 / IZR n1 + 1 / IZR n2) ->
  exists r, two_sample_proportion_test stats x1 n1 x2 n2 alpha test_type = inr r.
Proof.
  intros pp H1 H2 H12 V. pose proof (sqrt_lt_R0 _ V) as Hse.
  unfold two_sample_proportion_test.
  rewrite (PyFacts.div_ok (IZR x1)) by assumption. cbn [bind Monad_either].
  rewrite (PyFacts.div_ok (IZR x2)) by assumption. cbn [bind Monad_either].
  rewrite (PyFacts.div_ok (IZR (x1 + x2))) by assumption. cbn [bind Monad_either].
  fold pp.
  rewrite (PyFacts.div_ok 1 (IZR n1)) by assumption. cbn [bind Monad_either].
  rewrite (PyFacts.div_ok 1 (IZR n2)) by assumption. cbn [bind Monad_either].
  rewrite PyFacts.math_sqrt_ok by lra. cbn [bind Monad_either].
  rewrite PyFacts.div_ok by lra. cbn [bind Monad_either].
  match goal with |- context [norm_region stats test_type alpha ?z] =>
    destruct (decision_norm_region stats test_type alpha z) as [b Hb];
    destruct (norm_region stats test_type alpha z) as [cv p]
  end.
  cbn [fst] in Hb. rewrite Hb. eexists. reflexivity.
Qed.

End Shapes.

Section Proportions.
Variable stats : ScipyStats.



(** X18. Swapping the two samples of [two_sample_proportion_test] changes
    the sign of the statistic and nothing else that does not depend on the
    direction: same pooled proportion, standard error and warning, and in a
    two-tailed test the same critical values, p-value and decision. *)
Theorem swapping_the_samples_flips_the_statistic x1 n1 x2 n2 alpha test_type r :
  two_sample_proportion_test stats x1 n1 x2 n2 alpha test_type = inr r ->
  exists r',
    two_sample_proportion_test stats x2 n2 x1 n1 alpha test_type = inr r' /\
    TwoSampleProportion.test_statistic r' = - TwoSampleProportion.test_statistic r /\
    TwoSampleProportion.standard_error r' = TwoSampleProportion.standard_error r /\
    TwoSampleProportion.pooled_proportion r' = TwoSampleProportion.pooled_proportion r /\
    TwoSampleProportion.warning r' = TwoSampleProportion.warning r /\
    (test_type = "two-tailed" ->
     TwoSampleProportion.critical_values r' = TwoSampleProportion.critical_values r /\
     TwoSampleProportion.p_value r' = TwoSampleProportion.p_value r /\
     TwoSampleProportion.reject_null r' = TwoSampleProportion.reject_null r).
Proof.
  intros H.
  apply two_sample_proportion_test_shape in H
    as (H1 & H2 & H12 & V & Epp & Ese & Hse & Ez & Ew & ER & ED).
  assert (Vpos : 0 < IZR (x1 + x2) / IZR (n1 + n2)
                     * (1 - IZR (x1 + x2) / IZR (n1 + n2))
                     * (1 / IZR n1 + 1 / IZR n2)).
  { apply sqrt_neq_0_pos; [assumption | rewrite <- Ese; assumption]. }
  destruct (two_sample_proportion_test_build stats x2 n2 x1 n1 alpha test_type)
    as [r' Hr']; try assumption.
  { rewrite Z.add_comm. assumption. }
  { rewrite (Z.add_comm x2 x1), (Z.add_comm n2 n1), (Rplus_comm (1 / IZR n2)).
    assumption. }
  exists r'. split; [exact Hr' |].
  apply two_sample_proportion_test_shape in Hr'
    as (_ & _ & _ & _ & Epp' & Ese' & Hse' & Ez' & Ew' & ER' & ED').
  rewrite (Z.add_comm x2 x1), (Z.add_comm n2 n1) in Epp', Ese', Ew'.
  rewrite (Rplus_comm (1 / IZR n2)) in Ese'.
  assert (S : TwoSampleProportion.standard_error r'
              = TwoSampleProportion.standard_error r) by congruence.
  assert (Z : TwoSampleProportion.test_statistic r'
              = - TwoSampleProportion.test_statistic r).
  { rewrite Ez', Ez, S. field. repeat split; assumption. }
  split; [exact Z |]. split; [exact S |]. split; [congruence |].
  split.
  { rewrite Ew', Ew. f_equal. f_equal.
    destruct (ge (IZR n1 * _) 5), (ge (IZR n1 * _) 5), (ge (IZR n2 * _) 5),
      (ge (IZR n2 * _) 5); reflexivity. }
  intros ->. rewrite Z in ER', ED'.
  rewrite norm_region_two_tailed in ER, ER'. rewrite Rabs_Ropp in ER'.
  injection ER as Ecv Ep. injection ER' as Ecv' Ep'.
  split; [congruence |]. split; [congruence |].
  rewrite <- Ecv in ED. rewrite <- Ecv' in ED'.
  rewrite decision_two_tailed in ED, ED'. rewrite Rabs_Ropp in ED'. congruence.
Qed.


Hypothesis laws : ScipyLaws stats.


(** X20. Equal sample proportions decide nothing: when [x1/n1 = x2/n2], a
    two-tailed [two_sample_proportion_test] that returns has statistic 0 and
    p-value 1, and does not reject, whatever [alpha] is. *)
Theorem equal_sample_proportions_do_not_reject x1 n1 x2 n2 alpha r :
  two_sample_proportion_test stats x1 n1 x2 n2 alpha "two-tailed" = inr r ->
  (x1 * n2 = x2 * n1)%Z ->
  TwoSampleProportion.test_statistic r = 0 /\
  TwoSampleProportion.p_value r = 1 /\
  TwoSampleProportion.reject_null r = false.
Proof.
  intros H E.
  apply two_sample_proportion_test_shape in H
    as (H1 & H2 & _ & _ & _ & _ & Hse & Ez & _ & ER & ED).
  assert (Z : TwoSampleProportion.test_statistic r = 0).
  { rewrite Ez.
    assert (E' : IZR x1 * IZR n2 = IZR x2 * IZR n1)
      by (rewrite <- !mult_IZR; f_equal; assumption).
    assert (D : IZR x1 / IZR n1 - IZR x2 / IZR n2 = 0).
    { replace (IZR x1 / IZR n1 - IZR x2 / IZR n2)
        with ((IZR x1 * IZR n2 - IZR x2 * IZR n1) / (IZR n1 * IZR n2))
        by (field; split; assumption).
      rewrite E'. unfold Rdiv. ring. }
    rewrite D. unfold Rdiv. ring. }
  split; [exact Z |].
  rewrite Z, norm_region_two_tailed, Rabs_R0 in ER. injection ER as Ecv Ep.
  rewrite (norm_cdf_0 _ laws) in Ep.
  split; [lra |].
  rewrite Z, <- Ecv, decision_two_tailed, Rabs_R0 in ED. injection ED as <-.
  unfold gt. apply PyFacts.lt_false. apply Rabs_pos.
Qed.

End Proportions.


Lemma swapping_the_samples_flips_the_statistic_witness :
  exists r r',
    two_sample_proportion_test Sigmoid.stats 45 100 30 100 0.05 "two-tailed" = inr r /\
    two_sample_proportion_test Sigmoid.stats 30 100 45 100 0.05 "two-tailed" = inr r' /\
    TwoSampleProportion.test_statistic r' = - TwoSampleProportion.test_statistic r /\
    TwoSampleProportion.p_value r' = TwoSampleProportion.p_value r /\
    TwoSampleProportion.reject_null r' = TwoSampleProportion.reject_null r.
Proof.
  destruct (two_sample_proportion_test_returns Sigmoid.stats 45 100 30 100 0.05
              "two-tailed") as (r & Hr & _); [lia | lia | lia |].
  destruct (swapping_the_samples_flips_the_statistic Sigmoid.stats 45 100 30 100
              0.05 "two-tailed" r Hr) as (r' & Hr' & A & _ & _ & _ & B).
  destruct (B eq_refl) as (_ & C & D).
  exists r, r'. repeat split; assumption.
Defined.

Section TwoSampleMeans.
Variable stats : ScipyStats.


End TwoSampleMeans.



Lemma equal_sample_proportions_do_not_reject_witness :
  exists r,
    two_sample_proportion_test Sigmoid.stats 30 100 60 200 0.05 "two-tailed" = inr r /\
    TwoSampleProportion.test_statistic r = 0 /\
    TwoSampleProportion.p_value r = 1 /\
    TwoSampleProportion.reject_null r = false.
Proof.
  destruct (two_sample_proportion_test_returns Sigmoid.stats 30 100 60 200 0.05
              "two-tailed") as (r & Hr & _); [lia | lia | lia |].
  exists r. split; [exact Hr |].
  apply (equal_sample_proportions_do_not_reject Sigmoid.stats
           SigmoidFacts.sigmoid_laws 30 100 60 200 0.05 r Hr).
  lia.
Defined.

End HypothesisTestingMoreSpec.

(** ** numpy: sorting, extremes and percentiles *)

Module NumPyFacts.
Import NumPy.

Lemma insert_perm x l : Permutation (insert x l) (x :: l).
Proof.
  induction l as [| y l IH]; cbn.
  - apply Permutation_refl.
  - destruct (le x y).
    + apply Permutation_refl.
    + eapply perm_trans; [apply perm_skip, IH | apply perm_swap].
Qed.

Lemma np_sort_perm a : Permutation (np_sort a) a.
Proof.
  induction a as [| x a IH]; cbn.
  - apply perm_nil.
  - eapply perm_trans; [apply insert_perm | apply perm_skip, IH].
Qed.

Lemma np_sort_length a : length (np_sort a) = length a.
Proof. apply Permutation_length, np_sort_perm. Qed.

Lemma np_sort_In a x : In x (np_sort a) <-> In x a.
Proof.
  split; apply Permutation_in; [| apply Permutation_sym]; apply np_sort_perm.
Qed.

Lemma np_sort_nonempty a : a <> [] -> np_sort a <> [].
Proof.
  intros H E. apply H. apply length_zero_iff_nil.
  rewrite <- np_sort_length, E. reflexivity.
Qed.

Lemma insert_sorted x l : Sorted Rle l -> Sorted Rle (insert x l).
Proof.
  induction 1 as [| y l Hl IH Hd]; cbn.
  - repeat constructor.
  - destruct (le x y) eqn:E.
    + apply PyFacts.le_true in E.
      constructor; [constructor; assumption | constructor; assumption].
    + assert (Hyx : y <= x).
      { unfold le in E. apply negb_false_iff, PyFacts.lt_true in E. lra. }
      constructor; [assumption |].
      destruct l as [| z l']; cbn.
      * constructor. assumption.
      * inversion Hd; subst. destruct (le x z); constructor; assumption.
Qed.

Lemma np_sort_sorted a : StronglySorted Rle (np_sort a).
Proof.
  apply Sorted_StronglySorted.
  - intros x y z. apply Rle_trans.
  - induction a as [| x a IH]; cbn; [constructor | apply insert_sorted, IH].
Qed.

(** In a sorted list a later position holds a value at least as large. *)
Lemma sorted_nth_le s d i j :
  StronglySorted Rle s -> (i <= j < length s)%nat -> nth i s d <= nth j s d.
Proof.
  intros Hs. revert i j. induction Hs as [| x s Hs IH Hall]; intros i j [Hij Hj].
  - cbn in Hj. lia.
  - destruct i as [| i], j as [| j]; cbn [nth].
    + lra.
    + rewrite Forall_forall in Hall. apply Hall. apply nth_In. cbn in Hj. lia.
    + lia.
    + apply IH. cbn in Hj. lia.
Qed.

Lemma fold_left_Rmin_le l x : fold_left Rmin l x <= x /\
  (forall y, In y l -> fold_left Rmin l x <= y) /\
  (fold_left Rmin l x = x \/ In (fold_left Rmin l x) l).
Proof.
  revert x. induction l as [| z l IH]; intros x; cbn.
  - split; [lra |]. split; [contradiction | left; reflexivity].
  - destruct (IH (Rmin x z)) as (A & B & C).
    pose proof (Rmin_l x z). pose proof (Rmin_r x z).
    split; [lra |]. split.
    + intros y [<- | Hy]; [lra | apply B, Hy].
    + destruct C as [C | C]; [| right; right; exact C].
      rewrite C. unfold Rmin. destruct (Rle_dec x z); [left | right; left]; reflexivity.
Qed.

Lemma fold_left_Rmax_ge l x : x <= fold_left Rmax l x /\
  (forall y, In y l -> y <= fold_left Rmax l x) /\
  (fold_left Rmax l x = x \/ In (fold_left Rmax l x) l).
Proof.
  revert x. induction l as [| z l IH]; intros x; cbn.
  - split; [lra |]. split; [contradiction | left; reflexivity].
  - destruct (IH (Rmax x z)) as (A & B & C).
    pose proof (Rmax_l x z). pose proof (Rmax_r x z).
    split; [lra |]. split.
    + intros y [<- | Hy]; [lra | apply B, Hy].
    + destruct C as [C | C]; [| right; right; exact C].
      rewrite C. unfold Rmax. destruct (Rle_dec x z); [right; left | left]; reflexivity.
Qed.

(** [np.min] and [np.max] of a non-empty array: attained bounds. *)
Lemma np_min_spec a :
  a <> [] ->
  exists m, np_min a = inr m /\ In m a /\ forall y, In y a -> m <= y.
Proof.
  destruct a as [| x a]; [contradiction |]. intros _.
  destruct (fold_left_Rmin_le a x) as (A & B & C).
  exists (fold_left Rmin a x). split; [reflexivity |]. split.
  - destruct C as [-> | C]; [left; reflexivity | right; exact C].
  - intros y [<- | Hy]; [exact A | apply B, Hy].
Qed.

Lemma np_max_spec a :
  a <> [] ->
  exists m, np_max a = inr m /\ In m a /\ forall y, In y a -> y <= m.
Proof.
  destruct a as [| x a]; [contradiction |]. intros _.
  destruct (fold_left_Rmax_ge a x) as (A & B & C).
  exists (fold_left Rmax a x). split; [reflexivity |]. split.
  - destruct C as [-> | C]; [left; reflexivity | right; exact C].
  - intros y [<- | Hy]; [exact A | apply B, Hy].
Qed.

(** *** Linear interpolation in a sorted array *)

Lemma lerp_eq a b t : lerp a b t = a + t * (b - a).
Proof. unfold lerp. destruct (ge t 0.5); ring. Qed.

Section Interpolation.
Variables (s : list R) (d : R).
Hypothesis s_sorted : StronglySorted Rle s.
Let len := Z.of_nat (length s).

Lemma interpolation_index h :
  0 <= h <= IZR len - 1 ->
  (0 <= Zfloor h <= len - 1)%Z /\ IZR (Zfloor h) <= h < IZR (Zfloor h) + 1.
Proof.
  intros [H0 H1]. pose proof (Zfloor_bound h) as B.
  split; [| exact B]. split.
  - apply (Zfloor_lub 0). exact H0.
  - apply le_IZR. rewrite minus_IZR. lra.
Qed.

Lemma linear_interpolation_between h :
  0 <= h <= IZR len - 1 ->
  nth (Z.to_nat (Zfloor h)) s d <= linear_interpolation s d h /\
  linear_interpolation s d h
  <= nth (Z.to_nat (Z.min (Zfloor h + 1) (len - 1))) s d.
Proof.
  intros H. destruct (interpolation_index h H) as ([L0 L1] & [G0 G1]).
  unfold linear_interpolation. rewrite lerp_eq. fold len.
  set (lo := Zfloor h) in *.
  set (lower := nth (Z.to_nat lo) s d).
  set (upper := nth (Z.to_nat (Z.min (lo + 1) (len - 1))) s d).
  assert (LU : lower <= upper).
  { apply sorted_nth_le; [exact s_sorted |]. unfold len in *. lia. }
  split; nra.
Qed.

Lemma linear_interpolation_mono h h' :
  0 <= h -> h <= h' -> h' <= IZR len - 1 ->
  linear_interpolation s d h <= linear_interpolation s d h'.
Proof.
  intros H0 Hh H1.
  assert (A : 0 <= h <= IZR len - 1) by lra.
  assert (A' : 0 <= h' <= IZR len - 1) by lra.
  destruct (interpolation_index h A) as ([L0 L1] & [G0 G1]).
  destruct (interpolation_index h' A') as ([L0' L1'] & [G0' G1']).
  pose proof (Zfloor_le h h' Hh) as Hlo.
  destruct (Z.eq_dec (Zfloor h) (Zfloor h')) as [E | N].
  - unfold linear_interpolation. rewrite !lerp_eq. fold len. rewrite <- E in *.
    set (lo := Zfloor h) in *.
    set (lower := nth (Z.to_nat lo) s d).
    set (upper := nth (Z.to_nat (Z.min (lo + 1) (len - 1))) s d).
    assert (LU : lower <= upper).
    { apply sorted_nth_le; [exact s_sorted |]. unfold len in *. lia. }
    nra.
  - destruct (linear_interpolation_between h A) as [_ U].
    destruct (linear_interpolation_between h' A') as [L _].
    assert (M : nth (Z.to_nat (Z.min (Zfloor h + 1) (len - 1))) s d
                <= nth (Z.to_nat (Zfloor h')) s d).
    { apply sorted_nth_le; [exact s_sorted |]. unfold len in *. lia. }
    lra.
Qed.

Lemma linear_interpolation_within h :
  0 <= h <= IZR len - 1 ->
  nth 0 s d <= linear_interpolation s d h /\
  linear_interpolation s d h <= nth (length s - 1) s d.
Proof.
  intros H. destruct (interpolation_index h H) as ([L0 L1] & _).
  destruct (linear_interpolation_between h H) as [L U].
  split.
  - eapply Rle_trans; [| exact L].
    apply sorted_nth_le; [exact s_sorted |]. unfold len in *. lia.
  - eapply Rle_trans; [exact U |].
    apply sorted_nth_le; [exact s_sorted |]. unfold len in *. lia.
Qed.

Lemma linear_interpolation_at_index (k : nat) :
  linear_interpolation s d (INR k) = nth k s d.
Proof.
  unfold linear_interpolation. rewrite lerp_eq, INR_IZR_INZ, ZfloorZ, Nat2Z.id. ring.
Qed.

End Interpolation.

(** The value [np.percentile] returns on a non-empty array. *)
Lemma np_percentile_value a q :
  a <> [] -> 0 <= q <= 100 ->
  np_percentile a q
  = inr (Some (linear_interpolation (np_sort a) (hd 0 (np_sort a))
                 (q / 100 * (INR (length a) - 1)))).
Proof.
  intros Ha [Q0 Q1]. unfold np_percentile.
  rewrite (proj2 (PyFacts.lt_false q 0)), (proj2 (PyFacts.lt_false 100 q)) by lra.
  cbn [orb]. pose proof (np_sort_nonempty a Ha) as Hs.
  pose proof (np_sort_length a) as Hl.
  destruct (np_sort a) as [| x s'] eqn:E; [contradiction |].
  cbn [hd]. rewrite <- Hl, INR_IZR_INZ. reflexivity.
Qed.

Lemma np_percentile_empty q :
  0 <= q <= 100 -> np_percentile [] q = inl IndexError.
Proof.
  intros [Q0 Q1]. unfold np_percentile.
  rewrite (proj2 (PyFacts.lt_false q 0)), (proj2 (PyFacts.lt_false 100 q)) by lra.
  reflexivity.
Qed.


(** The virtual index of a percentile lies within the array. *)
Lemma virtual_index_range (n : nat) q :
  (0 < n)%nat -> 0 <= q <= 100 ->
  0 <= q / 100 * (INR n - 1) <= IZR (Z.of_nat n) - 1.
Proof.
  intros Hn [Q0 Q1]. rewrite <- INR_IZR_INZ.
  assert (1 <= INR n) by (apply (le_INR 1); lia).
  split; nra.
Qed.

(** [np.median] is the 50th percentile. *)
Lemma np_median_is_interpolation a :
  a <> [] ->
  np_median a
  = Some (linear_interpolation (np_sort a) (hd 0 (np_sort a))
            (50 / 100 * (INR (length a) - 1))).
Proof.
  intros Ha. unfold np_median.
  pose proof (np_sort_nonempty a Ha) as Hs.
  pose proof (np_sort_length a) as Hl.
  destruct (np_sort a) as [| x s'] eqn:E; [contradiction |].
  cbn [hd]. rewrite <- Hl. set (s := x :: s') in *.
  assert (Hpos : (0 < length s)%nat) by (cbn; lia).
  destruct (Nat.Even_or_Odd (length s)) as [[k Hk] | [k Hk]].
  - (* even length *)
    assert (Ho : Nat.odd (length s) = false).
    { rewrite <- Nat.negb_even. apply negb_false_iff, Nat.even_spec. exists k. exact Hk. }
    rewrite Ho.
    assert (Hk1 : (1 <= k)%nat) by lia.
    assert (D : (length s / 2 = k)%nat).
    { rewrite Hk, Nat.mul_comm. apply Nat.div_mul. lia. }
    rewrite D. f_equal.
    assert (Eh : 50 / 100 * (INR (length s) - 1) = IZR (Z.of_nat k - 1) + 1 / 2).
    { rewrite Hk, mult_INR, minus_IZR, <- INR_IZR_INZ. cbn [INR]. lra. }
    unfold linear_interpolation. rewrite lerp_eq, Eh.
    assert (F : Zfloor (IZR (Z.of_nat k - 1) + 1 / 2) = (Z.of_nat k - 1)%Z).
    { apply Zfloor_eq. lra. }
    rewrite F.
    replace (Z.min (Z.of_nat k - 1 + 1) (Z.of_nat (length s) - 1)) with (Z.of_nat k)
      by lia.
    replace (Z.to_nat (Z.of_nat k - 1)) with (k - 1)%nat by lia.
    rewrite Nat2Z.id. lra.
  - (* odd length *)
    assert (Ho : Nat.odd (length s) = true).
    { apply Nat.odd_spec. exists k. exact Hk. }
    rewrite Ho.
    assert (D : (length s / 2 = k)%nat).
    { rewrite Hk, Nat.add_comm, Nat.mul_comm. rewrite Nat.div_add by lia. reflexivity. }
    rewrite D. f_equal.
    assert (Eh : 50 / 100 * (INR (length s) - 1) = INR k).
    { rewrite Hk, plus_INR, mult_INR. cbn [INR]. lra. }
    rewrite Eh, linear_interpolation_at_index. reflexivity.
Qed.

End NumPyFacts.

(** ** DescriptiveStats: order statistics *)

Module DescriptiveStatsMoreSpec.
Import NumPy DescriptiveStats NumPyFacts.

(** The sorted data of a non-empty dataset: its first value is the minimum
    and its last the maximum. *)
Lemma sorted_ends (D : list R) :
  D <> [] ->
  exists lo hi,
    np_min D = inr lo /\ np_max D = inr hi /\
    nth 0 (np_sort D) (hd 0 (np_sort D)) = lo /\
    nth (length (np_sort D) - 1) (np_sort D) (hd 0 (np_sort D)) = hi /\
    (forall y, In y D -> lo <= y <= hi).
Proof.
  intros HD.
  destruct (np_min_spec D HD) as (lo & Elo & Ilo & Blo).
  destruct (np_max_spec D HD) as (hi & Ehi & Ihi & Bhi).
  exists lo, hi. split; [exact Elo |]. split; [exact Ehi |].
  pose proof (np_sort_sorted D) as Hs.
  assert (Hlen : (0 < length (np_sort D))%nat).
  { rewrite np_sort_length. destruct D; [contradiction | cbn; lia]. }
  apply (proj2 (np_sort_In D lo)) in Ilo. apply (proj2 (np_sort_In D hi)) in Ihi.
  assert (B : forall y, In y (np_sort D) -> lo <= y <= hi).
  { intros y Hy. apply (proj1 (np_sort_In D y)) in Hy.
    split; [apply Blo | apply Bhi]; exact Hy. }
  remember (np_sort D) as s eqn:Es. remember (hd 0 s) as d eqn:Ed.
  split; [| split].
  - apply Rle_antisym; [| apply B, nth_In; lia].
    apply (In_nth _ _ d) in Ilo as (i & Hi & <-).
    apply sorted_nth_le; [exact Hs | lia].
  - apply Rle_antisym; [apply B, nth_In; lia |].
    apply (In_nth _ _ d) in Ihi as (i & Hi & <-).
    apply sorted_nth_le; [exact Hs | lia].
  - intros y Hy. split; [apply Blo, Hy | apply Bhi, Hy].
Qed.

(** A percentile of a non-empty dataset, with what is known of it. *)
Lemma percentile_of_dataset (D : list R) :
  D <> [] ->
  exists lo hi (P : R -> R),
    np_min D = inr lo /\ np_max D = inr hi /\
    (forall q, 0 <= q <= 100 -> np_percentile D q = inr (Some (P q))) /\
    np_median D = Some (P 50) /\
    (forall q, 0 <= q <= 100 -> lo <= P q <= hi) /\
    (forall q q', 0 <= q -> q <= q' -> q' <= 100 -> P q <= P q') /\
    P 0 = lo /\ P 100 = hi.
Proof.
  intros HD.
  destruct (sorted_ends D HD) as (lo & hi & Elo & Ehi & E0 & EL & _).
  pose proof (np_sort_sorted D) as Hs.
  pose proof (np_sort_length D) as Hl.
  assert (Hn : (0 < length D)%nat).
  { destruct D; [contradiction | cbn; lia]. }
  set (s := np_sort D) in *. set (d := hd 0 s) in *.
  exists lo, hi, (fun q => linear_interpolation s d (q / 100 * (INR (length D) - 1))).
  split; [exact Elo |]. split; [exact Ehi |].
  split; [intros q Hq; apply np_percentile_value; assumption |].
  split; [apply np_median_is_interpolation; assumption |].
  assert (R : forall q, 0 <= q <= 100 ->
    0 <= q / 100 * (INR (length D) - 1) <= IZR (Z.of_nat (length s)) - 1).
  { intros q Hq. rewrite Hl. apply virtual_index_range; assumption. }
  split; [| split; [| split]].
  - intros q Hq. cbv beta.
    destruct (linear_interpolation_within s d Hs _ (R q Hq)) as [A B].
    rewrite E0 in A. rewrite EL in B. split; assumption.
  - intros q q' Q0 Qq Q1. cbv beta.
    assert (1 <= INR (length D)) by (apply (le_INR 1); lia).
    apply (linear_interpolation_mono s d Hs).
    + apply (R q). lra.
    + nra.
    + apply (R q'). lra.
  - cbv beta. replace (0 / 100 * (INR (length D) - 1)) with (INR 0) by (cbn; lra).
    rewrite linear_interpolation_at_index. exact E0.
  - cbv beta.
    replace (100 / 100 * (INR (length D) - 1)) with (INR (length s - 1)).
    + rewrite linear_interpolation_at_index. exact EL.
    + rewrite Hl, minus_INR by lia. cbn [INR]. lra.
Qed.





(** *** Central tendency *)

Lemma getitem_in_range (a : list R) (i : Z) :
  (0 <= i < Z.of_nat (length a))%Z -> exists v, getitem a i = inr v.
Proof.
  intros [H0 H1]. unfold getitem.
  destruct (Z.ltb_spec i 0); [lia |].
  destruct (Z.leb_spec 0 i); [| lia].
  destruct (Z.ltb_spec i (Z.of_nat (length a))); [| lia].
  cbn [andb].
  destruct (nth_error a (Z.to_nat i)) as [v |] eqn:E; [eexists; reflexivity |].
  apply nth_error_None in E. lia.
Qed.

Lemma _calculate_central_tendency_returns (D : list R) :
  D <> [] ->
  _calculate_central_tendency (__init__ D)
  = inr {| Central.mean := np_mean D;
           Central.median := np_median D;
           Central.mode :=
             match stats_mode D with
             | Some (v, count) => if (1 <? count)%nat then Some v else None
             | None => None
             end |}.
Proof.
  intros HD. unfold _calculate_central_tendency. cbn [data n __init__].
  assert (Hn : (0 < length D)%nat) by (destruct D; [contradiction | cbn; lia]).
  destruct (Nat.odd (length D)) eqn:Ho; [reflexivity |].
  assert (He : Nat.even (length D) = true).
  { rewrite <- Nat.negb_odd, Ho. reflexivity. }
  apply Nat.even_spec in He as [k Hk].
  assert (Dv : (length D / 2 = k)%nat).
  { rewrite Hk, Nat.mul_comm. apply Nat.div_mul. lia. }
  rewrite Dv.
  destruct (getitem_in_range (sorted_data (__init__ D)) (Z.of_nat k - 1)) as [v1 E1].
  { unfold sorted_data. cbn [data __init__]. rewrite np_sort_length. lia. }
  destruct (getitem_in_range (sorted_data (__init__ D)) (Z.of_nat k)) as [v2 E2].
  { unfold sorted_data. cbn [data __init__]. rewrite np_sort_length. lia. }
  rewrite E1. cbn [bind Monad_either]. rewrite E2. reflexivity.
Qed.

(** X27. The methods agree where they make the same numpy call: on a
    non-empty dataset the median of [_calculate_central_tendency] is the
    median of [_calculate_five_number_summary], and the first and third
    quartiles of [_calculate_position] are those of the five-number summary.
    On an empty dataset each of the three raises: [_calculate_position] and
    [_calculate_central_tendency] an [IndexError], the five-number summary
    the [ValueError] of [np.min]. *)
Theorem methods_agree_on_median_and_quartiles (D : list R) :
  (D <> [] ->
   exists p c f,
     _calculate_position (__init__ D) = inr p /\
     _calculate_central_tendency (__init__ D) = inr c /\
     _calculate_five_number_summary (__init__ D) = inr f /\
     FiveNumber.median f = Central.median c /\
     Position.q1 p = FiveNumber.q1 f /\
     Position.q3 p = FiveNumber.q3 f /\
     Central.median c <> None) /\
  _calculate_position (__init__ []) = inl IndexError /\
  _calculate_central_tendency (__init__ []) = inl IndexError /\
  exists msg, _calculate_five_number_summary (__init__ []) = inl (ValueError msg).
Proof.
  split; [| split; [| split; [reflexivity | eexists; reflexivity]]].
  - intros HD.
    destruct (percentile_of_dataset D HD)
      as (lo & hi & P & Elo & Ehi & EP & Em & _).
    rewrite _calculate_central_tendency_returns by assumption.
    unfold _calculate_position, _calculate_five_number_summary. cbn [data __init__].
    rewrite Elo, Ehi, Em, (EP 25), (EP 50), (EP 75) by lra.
    cbn [bind Monad_either ret].
    do 3 eexists. do 3 (split; [reflexivity |]). cbn.
    repeat split; try reflexivity. discriminate.
  - unfold _calculate_position. cbn [data __init__].
    rewrite np_percentile_empty by lra. reflexivity.
Qed.

Lemma methods_agree_on_median_and_quartiles_witness :
  exists p c f,
    _calculate_position (__init__ [3; 1; 2; 2]) = inr p /\
    _calculate_central_tendency (__init__ [3; 1; 2; 2]) = inr c /\
    _calculate_five_number_summary (__init__ [3; 1; 2; 2]) = inr f /\
    FiveNumber.median f = Central.median c /\
    Position.q1 p = FiveNumber.q1 f /\
    Position.q3 p = FiveNumber.q3 f /\
    Central.median c <> None.
Proof.
  apply (methods_agree_on_median_and_quartiles [3; 1; 2; 2]). discriminate.
Defined.

(** *** The mode *)

(** The scan of [scipy.stats.mode] over the sorted values: [S] holds the
    values already scanned. *)
Lemma most_frequent_spec (a candidates : list R) :
  forall (best : R * nat) (S : R -> Prop),
    snd best = count_equal a (fst best) ->
    StronglySorted Rle (fst best :: candidates) ->
    (forall y, S y ->
       (count_equal a y <= snd best)%nat /\
       (count_equal a y = snd best -> fst best <= y)) ->
    snd (most_frequent candidates a best)
    = count_equal a (fst (most_frequent candidates a best)) /\
    (fst (most_frequent candidates a best) = fst best \/
     In (fst (most_frequent candidates a best)) candidates) /\
    (forall y, S y \/ In y candidates ->
       (count_equal a y <= snd (most_frequent candidates a best))%nat /\
       (count_equal a y = snd (most_frequent candidates a best) ->
        fst (most_frequent candidates a best) <= y)).
Proof.
  induction candidates as [| v rest IH]; intros best S Hc Hs HS.
  - cbn [most_frequent]. split; [exact Hc |]. split; [left; reflexivity |].
    intros y [Hy | []]. apply HS, Hy.
  - cbn [most_frequent].
    apply StronglySorted_inv in Hs as [Hs Hall].
    apply Forall_cons_iff in Hall as [Hbv Hall].
    set (best' := if (snd best <? count_equal a v)%nat
                  then (v, count_equal a v) else best).
    destruct (IH best' (fun y => S y \/ y = v)) as (A & B & C).
    + unfold best'. destruct (snd best <? count_equal a v)%nat; [reflexivity | exact Hc].
    + unfold best'. destruct (snd best <? count_equal a v)%nat; cbn [fst].
      * exact Hs.
      * apply StronglySorted_inv in Hs as [Hs _].
        constructor; assumption.
    + unfold best'. intros y [Hy | ->].
      * destruct (HS y Hy) as [H1 H2].
        destruct (Nat.ltb_spec (snd best) (count_equal a v)); cbn [fst snd].
        -- split; [lia | intros; lia].
        -- split; assumption.
      * destruct (Nat.ltb_spec (snd best) (count_equal a v)); cbn [fst snd].
        -- split; [lia | intros; lra].
        -- split; [lia | intros; exact Hbv].
    + split; [exact A |]. split.
      * destruct B as [B | B]; [| right; right; exact B].
        unfold best' in B.
        destruct (snd best <? count_equal a v)%nat; cbn [fst] in B.
        -- right; left. symmetry. exact B.
        -- left. exact B.
      * intros y [Hy | [-> | Hy]]; apply C.
        -- left; left; exact Hy.
        -- left; right; reflexivity.
        -- right; exact Hy.
Qed.

(** X28. The mode that [_calculate_central_tendency] reports on a non-empty
    dataset: there is none exactly when no value is repeated; otherwise it
    is a value of the dataset that occurs at least twice, no value occurs
    more often, and of the values that occur as often it is the smallest. *)
Theorem mode_is_the_smallest_most_frequent_value (D : list R) :
  D <> [] ->
  exists c,
    _calculate_central_tendency (__init__ D) = inr c /\
    (Central.mode c = None <-> NoDup D) /\
    (forall v, Central.mode c = Some v ->
       In v D /\ (2 <= count_equal D v)%nat /\
       forall y, (count_equal D y <= count_equal D v)%nat /\
                 (count_equal D y = count_equal D v -> v <= y)).
Proof.
  intros HD.
  rewrite _calculate_central_tendency_returns by assumption.
  eexists. split; [reflexivity |]. cbn [Central.mode].
  unfold stats_mode.
  pose proof (np_sort_sorted D) as Hs.
  pose proof (np_sort_In D) as HI.
  destruct (np_sort D) as [| v0 rest] eqn:ES.
  { exfalso. apply (np_sort_nonempty D HD ES). }
  destruct (most_frequent_spec D rest (v0, count_equal D v0) (fun y => y = v0))
    as (A & B & C).
  - reflexivity.
  - exact Hs.
  - intros y ->. cbn [fst snd]. split; [lia | intros; lra].
  - destruct (most_frequent rest D (v0, count_equal D v0)) as [v c].
    cbn [fst snd] in A, B, C.
    assert (Hv : In v D).
    { apply HI. destruct B as [-> | B]; [left; reflexivity | right; exact B]. }
    assert (Hall : forall y, (count_equal D y <= c)%nat /\
                             (count_equal D y = c -> v <= y)).
    { intros y. destruct (in_dec Req_dec_T y D) as [Hy | Hy].
      - apply C. apply HI in Hy. destruct Hy as [<- | Hy]; [left; reflexivity | right; exact Hy].
      - assert (E0 : count_equal D y = 0%nat) by (apply count_occ_not_In; exact Hy).
        assert (Hc : (0 < c)%nat).
        { rewrite A. apply count_occ_In. exact Hv. }
        rewrite E0. split; [lia | intros; lia]. }
    destruct (Nat.ltb_spec 1 c) as [Hc | Hc].
    + split.
      * split; [discriminate |].
        intros Hnd. exfalso.
        pose proof (proj1 (NoDup_count_occ Req_dec_T D) Hnd v) as Hle.
        unfold count_equal in A. lia.
      * intros v' [= <-]. split; [exact Hv |]. rewrite <- A.
        split; [lia | exact Hall].
    + split; [| discriminate].
      split; [| reflexivity].
      intros _. apply (NoDup_count_occ Req_dec_T). intros y.
      destruct (Hall y) as [Hy _]. unfold count_equal in Hy. lia.
Qed.

Lemma mode_is_the_smallest_most_frequent_value_witness :
  exists c,
    _calculate_central_tendency (__init__ [3; 1; 3; 1; 2]) = inr c /\
    (Central.mode c = None <-> NoDup [3; 1; 3; 1; 2]) /\
    (forall v, Central.mode c = Some v ->
       In v [3; 1; 3; 1; 2] /\ (2 <= count_equal [3; 1; 3; 1; 2]%R v)%nat /\
       forall y, (count_equal [3; 1; 3; 1; 2]%R y <= count_equal [3; 1; 3; 1; 2]%R v)%nat /\
                 (count_equal [3; 1; 3; 1; 2]%R y = count_equal [3; 1; 3; 1; 2]%R v -> v <= y)).
Proof.
  apply (mode_is_the_smallest_most_frequent_value [3; 1; 3; 1; 2]). discriminate.
Defined.

(** *** The standard error *)

Lemma np_var_too_few (a : list R) (ddof : nat) :
  (length a <= ddof)%nat -> np_var a ddof = None.
Proof.
  intros H. unfold np_var.
  replace (length a - ddof)%nat with 0%nat by lia.
  unfold Binary64.div. destruct (np_sum _); [| reflexivity].
  cbn [INR]. destruct (Req_dec_T 0 0) as [_ | N]; [reflexivity | contradiction N; reflexivity].
Qed.

(** X30. The standard error needs two values.  On a dataset of fewer than
    two, the sample variance divides by [n - 1 = 0], which in numpy gives a
    value that is not a number and raises nothing: the sample standard
    deviation, the standard error and the margin of error that
    [calculate_standard_error] returns are not numbers either, at every
    confidence level, and [_calculate_dispersion] on a single value returns
    with a sample variance and a sample standard deviation that are not
    numbers. *)
Theorem standard_error_needs_two_values (stats : ScipyStats) (D : list R) (cl : R) :
  (length D < 2)%nat ->
  let r := calculate_standard_error stats (__init__ D) cl in
  np_std D 1 = None /\
  StandardError.standard_error r = None /\
  StandardError.margin_of_error r = None /\
  (D <> [] ->
   exists d, _calculate_dispersion (__init__ D) = inr d /\
             sample_variance d = None /\ sample_std_dev d = None).
Proof.
  intros H r.
  assert (V : np_var D 1 = None) by (apply np_var_too_few; lia).
  assert (S : np_std D 1 = None) by (unfold np_std; rewrite V; reflexivity).
  split; [exact S |].
  subst r. unfold calculate_standard_error.
  cbn [StandardError.standard_error StandardError.margin_of_error data __init__].
  rewrite S. cbn [Binary64.div Binary64.mul].
  split; [reflexivity |]. split; [reflexivity |].
  intros Hne. destruct D as [| x D']; [contradiction Hne; reflexivity |].
  unfold _calculate_dispersion. cbn [data __init__ np_max np_min bind Monad_either ret].
  eexists. split; [reflexivity |].
  cbn [sample_variance sample_std_dev]. split; assumption.
Qed.

Lemma standard_error_needs_two_values_witness :
  let r := calculate_standard_error Sigmoid.stats (__init__ [5]) 0.95 in
  np_std [5] 1 = None /\
  StandardError.standard_error r = None /\
  StandardError.margin_of_error r = None /\
  exists d, _calculate_dispersion (__init__ [5]) = inr d /\
            sample_variance d = None /\ sample_std_dev d = None.
Proof.
  destruct (standard_error_needs_two_values Sigmoid.stats [5] 0.95)
    as (A & B & C & E); [cbn; lia |].
  split; [exact A |]. split; [exact B |]. split; [exact C |].
  apply E. discriminate.
Defined.

End DescriptiveStatsMoreSpec.
